(** * SKU selection tool: the calculation engine

    A shallow embedding of [backend/app/core/calculator.py] (class
    [CalculationEngine]) together with the configuration records of
    [backend/app/models/multidimensional.py], and the properties of the
    engine that the specification states.

    Numbers.  Python floats are idealised as real numbers: every
    arithmetic step of the engine is exact, so rounding, infinities and
    NaN are outside the model.  What is kept of Python's arithmetic is
    its control behaviour: a float division by zero raises
    [ZeroDivisionError], a power whose result does not fit a float
    raises [OverflowError], and a negative float raised to a fractional
    power leaves the floats for the complex numbers.  Where a property
    is about the digits a computation ends in, the computation is
    repeated in binary64 (module [Binary64]). *)

From Stdlib Require Import Reals Lra PrimFloat.
From stdpp Require Import gmap strings.

(** ** Python values and exceptions *)

Inductive exn := ZeroDivisionError | OverflowError.

Inductive result (A : Type) :=
  | Ok (a : A)
  | Raise (e : exn).
Arguments Ok {A} a.
Arguments Raise {A} e.

#[export] Instance result_ret : MRet result := @Ok.
#[export] Instance result_bind : MBind result := λ A B f m,
  match m with
  | Ok a => f a
  | Raise e => Raise e
  end.

#[export] Instance Rle_decision (x y : R) : Decision (x <= y)%R := Rle_dec x y.
#[export] Instance Rlt_decision (x y : R) : Decision (x < y)%R := Rlt_dec x y.
#[export] Instance R_eq_decision : EqDecision R := Req_dec_T.

(** The value of an arithmetic expression that went through [**]: a
    float, or a complex number, of which only the type is tracked. *)
Inductive pynum :=
  | PyFloat (r : R)
  | PyComplex.

Definition pn_map (f : R → R) (a : pynum) : pynum :=
  match a with
  | PyFloat x => PyFloat (f x)
  | PyComplex => PyComplex
  end.

Module Py.

(** [x / y] on floats. *)
Definition div (x y : R) : result R :=
  if decide (y = 0%R) then Raise ZeroDivisionError else Ok (x / y)%R.

Definition is_integer (y : R) : Prop := y = IZR (Int_part y).

(** The floats end below [2 ^ 1024]: a result of that magnitude or
    more does not fit one. *)
Definition float_limit : R := (2 ^ 1024)%R.

Definition overflows (v : R) : Prop := (float_limit <= Rabs v)%R.

(** [x ** y] on floats ([float_pow] of CPython): [x ** 0] is 1, zero
    cannot be raised to a negative power, a result that does not fit a
    float raises [OverflowError], a negative base with a fractional
    exponent gives a complex number (of which only the type is kept). *)
Definition pow (x y : R) : result pynum :=
  if decide (y = 0%R) then Ok (PyFloat 1)
  else if decide (x = 0%R) then
    if decide (y < 0)%R then Raise ZeroDivisionError else Ok (PyFloat 0)
  else if decide (0 < x)%R then
    if decide (overflows (Rpower x y)) then Raise OverflowError
    else Ok (PyFloat (Rpower x y))
  else if decide (is_integer y) then
    if decide (overflows (powerRZ x (Int_part y))) then Raise OverflowError
    else Ok (PyFloat (powerRZ x (Int_part y)))
  else Ok PyComplex.

(** [x or 0.0] for a nullable float, [x or 0] for a nullable int. *)
Definition or_zero (x : option R) : R := default 0%R x.
Definition int_or_zero (x : option Z) : R := IZR (default 0%Z x).

(** Truth value of a nullable string and of a nullable boolean. *)
Definition truthy_str (s : option string) : bool :=
  match s with
  | Some s => bool_decide (s ≠ "")
  | None => false
  end.

Definition truthy_bool (b : option bool) : bool := default false b.

End Py.

(** ** The financial step in binary64

    Lines 63, 64 and 79 of [calculate_sku] on the floats of the code,
    for the properties that are about the last digits of a result. *)

Module Binary64.

Definition adj_list_price (base_list_price price_multiplier : float) : float :=
  (base_list_price * price_multiplier)%float.

Definition imported_cogs (base_landed_cost import_freight_pct duties_taxes_pct : float)
    : float :=
  (base_landed_cost * (1 + import_freight_pct) * (1 + duties_taxes_pct))%float.

Definition gm_dollar_per_unit (adj_list_price imported_cogs cts_pct : float) : float :=
  (adj_list_price - (imported_cogs + cts_pct * adj_list_price))%float.

End Binary64.

(** ** Configuration records ([models/multidimensional.py])

    Only the columns the engine reads are kept.  The three performance
    drivers that the resolver tests against [None] are nullable; the
    columns the engine uses in arithmetic without such a test are
    floats: a row that holds NULL in one of them, on which the
    arithmetic of [calculate_sku] raises [TypeError], is not a value of
    these types.  The properties below that assert a return of
    [calculate_sku] for every engine are stated for a market and a
    channel without a row. *)

Record MarketConfig := {
  import_freight_pct : R;
  duties_taxes_pct : R;
  price_multiplier : R;
}.

Record MarketChannelConfig := {
  commission_pct : R;
  fulfillment_pct : R;
  cod_pct : R;
  returns_allowance_pct : R;
  listing_fees_pct : R;
  trade_terms_pct : R;
  rebates_pct : R;
  promo_accrual_pct : R;
  retail_adoption_rate : option R;
  marketing_lift : option R;
  base_units_month : R;
  channel_weight : R;
  competitor_activity_idx : option R;
}.

Record MarketCategoryConfig := {
  adoption_rate_override : option R;
  marketing_lift_override : option R;
  competitor_idx_override : option R;
}.

(** [getattr(obj, name, None)] on the two records the resolver inspects.
    The names answered are the numeric columns; the resolver is only
    ever called with the three field names of its table. *)
Definition getattr_category (c : MarketCategoryConfig) (name : string) : option R :=
  if decide (name = "adoption_rate_override") then adoption_rate_override c
  else if decide (name = "marketing_lift_override") then marketing_lift_override c
  else if decide (name = "competitor_idx_override") then competitor_idx_override c
  else None.

Definition getattr_channel (c : MarketChannelConfig) (name : string) : option R :=
  if decide (name = "retail_adoption_rate") then retail_adoption_rate c
  else if decide (name = "marketing_lift") then marketing_lift c
  else if decide (name = "competitor_activity_idx") then competitor_activity_idx c
  else if decide (name = "commission_pct") then Some (commission_pct c)
  else if decide (name = "fulfillment_pct") then Some (fulfillment_pct c)
  else if decide (name = "cod_pct") then Some (cod_pct c)
  else if decide (name = "returns_allowance_pct") then Some (returns_allowance_pct c)
  else if decide (name = "listing_fees_pct") then Some (listing_fees_pct c)
  else if decide (name = "trade_terms_pct") then Some (trade_terms_pct c)
  else if decide (name = "rebates_pct") then Some (rebates_pct c)
  else if decide (name = "promo_accrual_pct") then Some (promo_accrual_pct c)
  else if decide (name = "base_units_month") then Some (base_units_month c)
  else if decide (name = "channel_weight") then Some (channel_weight c)
  else None.

(** Modelled from the spec: the class [SkuRecord] of [app/models/skus.py],
    which is not among the sources.  The attributes are those that
    [calculate_sku] reads, typed as the data model of the specification
    and the ingestion code give them: nullable strings, nullable floats,
    fifteen nullable integer ratings, nullable boolean gates. *)
Record SkuRecord := {
  sku_id : string;
  category : option string;
  target_market : option string;
  primary_channel : option string;
  local_list_price : option R;
  landed_cost : option R;
  score_consumer_trend : option Z;
  score_point_of_diff : option Z;
  score_channel_suitability : option Z;
  score_strategic_role : option Z;
  score_marketing_leverage : option Z;
  score_price_ladder : option Z;
  score_usage_occasion : option Z;
  score_channel_diff : option Z;
  score_story_cohesion : option Z;
  score_operational_synergy : option Z;
  score_regulatory_delay : option Z;
  score_retail_listing : option Z;
  score_competitive : option Z;
  score_supply_chain : option Z;
  score_price_war : option Z;
  regulatory_eligible : option bool;
  regulatory_prohibition : option bool;
  ip_risk_high : option bool;
  supply_ready : option bool;
}.

(** Modelled from the spec: the class [SkuCalculationCache] of
    [app/models/skus.py], which is not among the sources.  The fields
    are those [calculate_sku] assigns; a field the engine has not
    assigned is [None], which is how the object built by
    [SkuCalculationCache(sku_id=...)] reads. *)
Record SkuCalculationCache := {
  cache_sku_id : string;
  gm_dollar_per_unit : option R;
  gm_pct : option R;
  weighted_score_layer_b : option R;
  channel_weighted_score : option R;
  synergy_score_layer_c : option R;
  risk_score_layer_d : option R;
  risk_factor : option R;
  adj_units_base : option pynum;
  adj_units_best : option pynum;
  adj_units_worst : option pynum;
  monthly_revenue : option pynum;
  monthly_gm_dollar : option pynum;
  monthly_gm_base : option pynum;
  monthly_gm_best : option pynum;
  monthly_gm_worst : option pynum;
  pass_regulatory : option bool;
  pass_supply_ready : option bool;
  pass_gm_floor : option bool;
  final_recommendation : option string;
  select_for_wave_1 : option bool;
}.

(** [SkuCalculationCache(sku_id=sku.sku_id)]. *)
Definition new_cache (id : string) : SkuCalculationCache :=
  {| cache_sku_id := id;
     gm_dollar_per_unit := None; gm_pct := None;
     weighted_score_layer_b := None; channel_weighted_score := None;
     synergy_score_layer_c := None; risk_score_layer_d := None;
     risk_factor := None;
     adj_units_base := None; adj_units_best := None; adj_units_worst := None;
     monthly_revenue := None; monthly_gm_dollar := None;
     monthly_gm_base := None; monthly_gm_best := None; monthly_gm_worst := None;
     pass_regulatory := None; pass_supply_ready := None; pass_gm_floor := None;
     final_recommendation := None; select_for_wave_1 := None |}.

(** ** The engine ([core/calculator.py]) *)

Record CalculationEngine := {
  settings : gmap string R;
  markets : gmap string MarketConfig;
  market_channels : gmap string MarketChannelConfig;
  market_categories : gmap string MarketCategoryConfig;
}.

(** One entry of the [scenarios] dictionary of [calculate_sku]. *)
Record scenario := {
  price_delta : R;
  marketing_mult : R;
  adoption_mult : R;
  competitor_mult : R;
}.

Record scenario_table := {
  sc_base : scenario;
  sc_best : scenario;
  sc_worst : scenario;
}.

Local Open Scope R_scope.

Section Engine.

Variable self : CalculationEngine.

Definition _get_setting (key : string) (dflt : R) : R :=
  default dflt (settings self !! key).

Definition _map_field_name (field_name : string) : string :=
  if decide (field_name = "adoption_rate") then "retail_adoption_rate"
  else if decide (field_name = "marketing_lift") then "marketing_lift"
  else if decide (field_name = "competitor_idx") then "competitor_activity_idx"
  else field_name.

(** The two upper tiers of the cascade, each an optional value. *)
Definition category_tier (market channel category field_name : string) : option R :=
  let cat_key := market +:+ "_" +:+ channel +:+ "_" +:+ category in
  c ← market_categories self !! cat_key;
  getattr_category c (field_name +:+ "_override").

Definition channel_tier (market channel field_name : string) : option R :=
  let chan_key := market +:+ "_" +:+ channel in
  c ← market_channels self !! chan_key;
  getattr_channel c (_map_field_name field_name).

Definition _get_override (market channel category field_name : string)
    (global_default : R) : R :=
  match category_tier market channel category field_name with
  | Some override_val => override_val
  | None =>
      match channel_tier market channel field_name with
      | Some val => val
      | None => _get_setting field_name global_default
      end
  end.

(** *** 1-3. Market economics, CTS total, core financials *)

Definition base_list_price (sku : SkuRecord) : R := Py.or_zero (local_list_price sku).
Definition base_landed_cost (sku : SkuRecord) : R := Py.or_zero (landed_cost sku).

Definition adj_list_price (sku : SkuRecord) (market : string) : R :=
  match markets self !! market with
  | Some market_data => base_list_price sku * price_multiplier market_data
  | None => base_list_price sku
  end.

Definition imported_cogs (sku : SkuRecord) (market : string) : R :=
  match markets self !! market with
  | Some market_data =>
      base_landed_cost sku * (1 + import_freight_pct market_data)
        * (1 + duties_taxes_pct market_data)
  | None => base_landed_cost sku
  end.

Definition cts_total (mc : MarketChannelConfig) : R :=
  commission_pct mc + fulfillment_pct mc + cod_pct mc
  + returns_allowance_pct mc + listing_fees_pct mc
  + trade_terms_pct mc + rebates_pct mc + promo_accrual_pct mc.

Definition cts_pct (market channel : string) : R :=
  match market_channels self !! (market +:+ "_" +:+ channel) with
  | Some mc => cts_total mc
  | None => 0
  end.

Definition gm_per_unit (sku : SkuRecord) (market channel : string) : R :=
  adj_list_price sku market
  - (imported_cogs sku market + cts_pct market channel * adj_list_price sku market).

Definition gm_pct_of (sku : SkuRecord) (market channel : string) : R :=
  if decide (0 < adj_list_price sku market)
  then gm_per_unit sku market channel / adj_list_price sku market
  else 0.

(** *** 4-6. The three weighted scores *)

Definition score_b (sku : SkuRecord) : R :=
  Py.int_or_zero (score_consumer_trend sku) * _get_setting "consumer_trend_weight" 0.2
  + Py.int_or_zero (score_point_of_diff sku) * _get_setting "point_of_diff_weight" 0.2
  + Py.int_or_zero (score_channel_suitability sku) * _get_setting "channel_suitability_weight" 0.2
  + Py.int_or_zero (score_strategic_role sku) * _get_setting "strategic_role_weight" 0.2
  + Py.int_or_zero (score_marketing_leverage sku) * _get_setting "marketing_leverage_weight" 0.2.

Definition ch_weight (market channel : string) : R :=
  match market_channels self !! (market +:+ "_" +:+ channel) with
  | Some mc => channel_weight mc
  | None => 1
  end.

Definition channel_weighted (sku : SkuRecord) (market channel : string) : R :=
  score_b sku * ch_weight market channel.

Definition score_c (sku : SkuRecord) : R :=
  Py.int_or_zero (score_price_ladder sku) * _get_setting "price_ladder_weight" 0.2
  + Py.int_or_zero (score_usage_occasion sku) * _get_setting "usage_occasion_weight" 0.2
  + Py.int_or_zero (score_channel_diff sku) * _get_setting "channel_diff_weight" 0.2
  + Py.int_or_zero (score_story_cohesion sku) * _get_setting "story_cohesion_weight" 0.2
  + Py.int_or_zero (score_operational_synergy sku) * _get_setting "operational_synergy_weight" 0.2.

Definition score_d (sku : SkuRecord) : R :=
  Py.int_or_zero (score_regulatory_delay sku) * _get_setting "regulatory_delay_weight" 0.2
  + Py.int_or_zero (score_retail_listing sku) * _get_setting "retail_listing_weight" 0.2
  + Py.int_or_zero (score_competitive sku) * _get_setting "competitive_weight" 0.2
  + Py.int_or_zero (score_supply_chain sku) * _get_setting "supply_chain_weight" 0.2
  + Py.int_or_zero (score_price_war sku) * _get_setting "price_war_weight" 0.2.

(** *** 8. Demand: elasticity and scenarios *)

Definition base_units (market channel : string) : R :=
  match market_channels self !! (market +:+ "_" +:+ channel) with
  | Some mc => base_units_month mc
  | None => 0
  end.

Definition price_elasticity : R := _get_setting "price_elasticity_abs" 1.5.

(** [sku.category or "Unknown"]. *)
Definition category_of (sku : SkuRecord) : string :=
  match category sku with
  | Some c => if decide (c = "") then "Unknown" else c
  | None => "Unknown"
  end.

Definition marketing_budget_multiplier (sku : SkuRecord) (market channel : string) : R :=
  _get_override market channel (category_of sku) "marketing_lift" 1.
Definition retail_adoption_fraction (sku : SkuRecord) (market channel : string) : R :=
  _get_override market channel (category_of sku) "adoption_rate" 1.
Definition target_comp_index (sku : SkuRecord) (market channel : string) : R :=
  _get_override market channel (category_of sku) "competitor_idx" 1.

Definition risk_factor_of (sku : SkuRecord) : R :=
  Rmax (_get_setting "global_risk_floor" 0.6)
       (1 - _get_setting "global_risk_slope" 0.25 * (score_d sku - 1)).

Definition score_multiplier (sku : SkuRecord) (market channel : string) : R :=
  Rmax 0.6 (channel_weighted sku market channel / 5).

Definition ramp_factor : R := 1.

Definition marketing_factor (sku : SkuRecord) (market channel : string) : R :=
  Rmax 0.85 (Rmin 1.15 (1 * marketing_budget_multiplier sku market channel)).

Definition adoption_factor (sku : SkuRecord) (market channel : string) : R :=
  retail_adoption_fraction sku market channel.

Definition lin_penalty (sku : SkuRecord) (market channel : string) : R :=
  (_get_setting "competitive_weight" 0.2 * target_comp_index sku market channel
   + _get_setting "price_war_weight" 0.2 * target_comp_index sku market channel)
  * (score_d sku / 5).

Definition competitor_factor (sku : SkuRecord) (market channel : string) : R :=
  Rmax (1 - Rmin (_get_setting "risk_penalty_cap" 0.4) (lin_penalty sku market channel)) 0.6.

Definition price_eff_index : R :=
  1 * (1 + _get_setting "global_price_adjustment_pct" 0).

Definition common_units_mult (sku : SkuRecord) (market channel : string) : R :=
  base_units market channel * score_multiplier sku market channel
  * risk_factor_of sku * marketing_factor sku market channel
  * adoption_factor sku market channel * competitor_factor sku market channel
  * ramp_factor.

Definition scenarios : scenario_table :=
  {| sc_base :=
       {| price_delta := _get_setting "scenario_base_price_delta" 0;
          marketing_mult := _get_setting "scenario_base_marketing_mult" 1;
          adoption_mult := _get_setting "scenario_base_adoption_mult" 1;
          competitor_mult := _get_setting "scenario_base_competitor_mult" 1 |};
     sc_best :=
       {| price_delta := _get_setting "scenario_best_price_delta" (-0.05);
          marketing_mult := _get_setting "scenario_best_marketing_mult" 1.15;
          adoption_mult := _get_setting "scenario_best_adoption_mult" 1.2;
          competitor_mult := _get_setting "scenario_best_competitor_mult" 0.9 |};
     sc_worst :=
       {| price_delta := _get_setting "scenario_worst_price_delta" 0.10;
          marketing_mult := _get_setting "scenario_worst_marketing_mult" 0.85;
          adoption_mult := _get_setting "scenario_worst_adoption_mult" 0.8;
          competitor_mult := _get_setting "scenario_worst_competitor_mult" 1.2 |} |}.

(** [(1.0 / (price_eff_index * (1.0 + delta))) ** price_elasticity]. *)
Definition price_effect (s : scenario) : result pynum :=
  q ← Py.div 1 (price_eff_index * (1 + price_delta s));
  Py.pow q price_elasticity.

Definition scenario_units (sku : SkuRecord) (market channel : string)
    (s : scenario) : result pynum :=
  effect ← price_effect s;
  mret (pn_map (λ e, common_units_mult sku market channel * e
                     * marketing_mult s * adoption_mult s * competitor_mult s)
               effect).

(** *** 9. Final recommendation *)

Definition is_regulatory_passed (sku : SkuRecord) : bool :=
  default true (regulatory_eligible sku).
Definition is_supply_passed (sku : SkuRecord) : bool :=
  default true (supply_ready sku).
Definition is_gm_passed (sku : SkuRecord) (market channel : string) : bool :=
  bool_decide (_get_setting "gm_floor_pct" 0.35 <= gm_pct_of sku market channel).

Definition recommendation (sku : SkuRecord) (market channel : string) : string * bool :=
  if Py.truthy_bool (ip_risk_high sku) || Py.truthy_bool (regulatory_prohibition sku)
  then ("Do Not Launch", false)
  else if is_regulatory_passed sku && is_supply_passed sku
          && is_gm_passed sku market channel
          && bool_decide (_get_setting "launch_now_min_score" 4 <= score_b sku)
          && bool_decide (score_d sku <= _get_setting "launch_now_max_risk" 2.5)
  then ("Launch Now", true)
  else ("Phase Later", false).

(** *** [calculate_sku] *)

(** The snapshot [calculate_sku] has filled in when it returns below
    its guard, from the units of the three scenarios. *)
Definition snapshot (sku : SkuRecord) (market channel : string)
    (units_base units_best units_worst : pynum) : SkuCalculationCache :=
  let gm := gm_per_unit sku market channel in
  {| cache_sku_id := sku_id sku;
     gm_dollar_per_unit := Some gm;
     gm_pct := Some (gm_pct_of sku market channel);
     weighted_score_layer_b := Some (score_b sku);
     channel_weighted_score := Some (channel_weighted sku market channel);
     synergy_score_layer_c := Some (score_c sku);
     risk_score_layer_d := Some (score_d sku);
     risk_factor := Some (risk_factor_of sku);
     adj_units_base := Some units_base;
     adj_units_best := Some units_best;
     adj_units_worst := Some units_worst;
     monthly_revenue := Some (pn_map (λ u, u * adj_list_price sku market) units_base);
     monthly_gm_dollar := Some (pn_map (λ u, u * gm) units_base);
     monthly_gm_base := Some (pn_map (λ u, u * gm) units_base);
     monthly_gm_best := Some (pn_map (λ u, u * gm) units_best);
     monthly_gm_worst := Some (pn_map (λ u, u * gm) units_worst);
     pass_regulatory := Some (is_regulatory_passed sku);
     pass_supply_ready := Some (is_supply_passed sku);
     pass_gm_floor := Some (is_gm_passed sku market channel);
     final_recommendation := Some (recommendation sku market channel).1;
     select_for_wave_1 := Some (recommendation sku market channel).2 |}.

(** The body of [calculate_sku] below its guard, for the market and
    the channel the guard has found.  The three price effects are the
    only steps that can raise, in this order. *)
Definition calculate_full (sku : SkuRecord) (market channel : string)
    : result SkuCalculationCache :=
  units_base ← scenario_units sku market channel (sc_base scenarios);
  units_best ← scenario_units sku market channel (sc_best scenarios);
  units_worst ← scenario_units sku market channel (sc_worst scenarios);
  mret (snapshot sku market channel units_base units_best units_worst).

Definition calculate_sku (sku : SkuRecord) : result SkuCalculationCache :=
  let cache := new_cache (sku_id sku) in
  if negb (Py.truthy_str (target_market sku)) || negb (Py.truthy_str (primary_channel sku))
  then Ok cache
  else calculate_full sku (default "" (target_market sku))
                          (default "" (primary_channel sku)).

End Engine.

(** ** Vocabulary of the specification *)

(** The three fields that share the resolver's namespace, and the fixed
    translation table of the specification, written out attribute by
    attribute. *)
Inductive field := AdoptionRate | MarketingLift | CompetitorIdx.

Definition field_name (f : field) : string :=
  match f with
  | AdoptionRate => "adoption_rate"
  | MarketingLift => "marketing_lift"
  | CompetitorIdx => "competitor_idx"
  end.

Definition category_override (f : field) (c : MarketCategoryConfig) : option R :=
  match f with
  | AdoptionRate => adoption_rate_override c
  | MarketingLift => marketing_lift_override c
  | CompetitorIdx => competitor_idx_override c
  end.

Definition channel_value (f : field) (c : MarketChannelConfig) : option R :=
  match f with
  | AdoptionRate => retail_adoption_rate c
  | MarketingLift => marketing_lift c
  | CompetitorIdx => competitor_activity_idx c
  end.

(** The cascade as the specification words it: category override, then
    channel value, then the global setting under the original field
    name, then the caller's default. *)
Definition resolve_spec (self : CalculationEngine)
    (market channel category : string) (f : field) (dflt : R) : R :=
  match market_categories self !! (market +:+ "_" +:+ channel +:+ "_" +:+ category)
        ≫= category_override f with
  | Some v => v
  | None =>
      match market_channels self !! (market +:+ "_" +:+ channel) ≫= channel_value f with
      | Some v => v
      | None =>
          match settings self !! field_name f with
          | Some v => v
          | None => dflt
          end
      end
  end.

(** The SKU passes the guard of [calculate_sku] with this market and
    this channel. *)
Definition targets (sku : SkuRecord) (market channel : string) : Prop :=
  target_market sku = Some market ∧ market ≠ ""
  ∧ primary_channel sku = Some channel ∧ channel ≠ "".

(** Every field of the snapshot has been assigned. *)
Definition fully_computed (c : SkuCalculationCache) : Prop :=
  is_Some (gm_dollar_per_unit c) ∧ is_Some (gm_pct c)
  ∧ is_Some (weighted_score_layer_b c) ∧ is_Some (channel_weighted_score c)
  ∧ is_Some (synergy_score_layer_c c) ∧ is_Some (risk_score_layer_d c)
  ∧ is_Some (risk_factor c)
  ∧ is_Some (adj_units_base c) ∧ is_Some (adj_units_best c)
  ∧ is_Some (adj_units_worst c)
  ∧ is_Some (monthly_revenue c) ∧ is_Some (monthly_gm_dollar c)
  ∧ is_Some (monthly_gm_base c) ∧ is_Some (monthly_gm_best c)
  ∧ is_Some (monthly_gm_worst c)
  ∧ is_Some (pass_regulatory c) ∧ is_Some (pass_supply_ready c)
  ∧ is_Some (pass_gm_floor c)
  ∧ is_Some (final_recommendation c) ∧ is_Some (select_for_wave_1 c).

(** The divisor of the price effect of a scenario, and the condition
    that none of the three divisions of [calculate_sku] is by zero. *)
Definition price_divisor (self : CalculationEngine) (s : scenario) : R :=
  price_eff_index self * (1 + price_delta s).

Definition divisors_nonzero (self : CalculationEngine) : Prop :=
  price_divisor self (sc_base (scenarios self)) ≠ 0
  ∧ price_divisor self (sc_best (scenarios self)) ≠ 0
  ∧ price_divisor self (sc_worst (scenarios self)) ≠ 0.

(** The scenario table when no scenario setting is configured. *)
Definition default_scenarios : scenario_table :=
  {| sc_base := {| price_delta := 0; marketing_mult := 1;
                   adoption_mult := 1; competitor_mult := 1 |};
     sc_best := {| price_delta := -0.05; marketing_mult := 1.15;
                   adoption_mult := 1.2; competitor_mult := 0.9 |};
     sc_worst := {| price_delta := 0.10; marketing_mult := 0.85;
                    adoption_mult := 0.8; competitor_mult := 1.2 |} |}.

(** All fifteen ratings of the SKU are unset. *)
Definition ratings_unset (sku : SkuRecord) : Prop :=
  score_consumer_trend sku = None ∧ score_point_of_diff sku = None
  ∧ score_channel_suitability sku = None ∧ score_strategic_role sku = None
  ∧ score_marketing_leverage sku = None
  ∧ score_price_ladder sku = None ∧ score_usage_occasion sku = None
  ∧ score_channel_diff sku = None ∧ score_story_cohesion sku = None
  ∧ score_operational_synergy sku = None
  ∧ score_regulatory_delay sku = None ∧ score_retail_listing sku = None
  ∧ score_competitive sku = None ∧ score_supply_chain sku = None
  ∧ score_price_war sku = None.

(** ** Sample data *)

Module Sample.

(** A SKU of which only the identity, the market, the channel, the
    two prices and the IP-risk gate are filled in. *)
Definition sku (market channel : option string) (price cost : option R)
    (ip : option bool) : SkuRecord :=
  {| sku_id := "SKU-1"; category := None;
     target_market := market; primary_channel := channel;
     local_list_price := price; landed_cost := cost;
     score_consumer_trend := None; score_point_of_diff := None;
     score_channel_suitability := None; score_strategic_role := None;
     score_marketing_leverage := None;
     score_price_ladder := None; score_usage_occasion := None;
     score_channel_diff := None; score_story_cohesion := None;
     score_operational_synergy := None;
     score_regulatory_delay := None; score_retail_listing := None;
     score_competitive := None; score_supply_chain := None;
     score_price_war := None;
     regulatory_eligible := None; regulatory_prohibition := None;
     ip_risk_high := ip; supply_ready := None |}.

(** A market and a channel with the figures of the end-to-end example
    of the specification: multiplier 1.1, freight 0.1, duties 0.15,
    CTS total 0.12 + 0.03 + 0.02 + 0.02 + 0.01 = 0.20. *)
Definition india : MarketConfig :=
  {| import_freight_pct := 0.1; duties_taxes_pct := 0.15; price_multiplier := 1.1 |}.

Definition ecom : MarketChannelConfig :=
  {| commission_pct := 0.12; fulfillment_pct := 0.03; cod_pct := 0.02;
     returns_allowance_pct := 0.02; listing_fees_pct := 0.01;
     trade_terms_pct := 0; rebates_pct := 0; promo_accrual_pct := 0;
     retail_adoption_rate := Some 0.85; marketing_lift := Some 1.1;
     base_units_month := 500; channel_weight := 0.35;
     competitor_activity_idx := Some 0 |}.

Definition engine : CalculationEngine :=
  {| settings := ∅;
     markets := {[ "India" := india ]};
     market_channels := {[ "India_E-Com" := ecom ]};
     market_categories := ∅ |}.


End Sample.

(** ** Column defaults ([models/multidimensional.py])

    The values a row takes for the columns it was created without:
    [MarketConfig(market_name=m)] and
    [MarketChannelConfig(market_id=m, channel=c)] once inserted. *)

Definition default_market_config : MarketConfig :=
  {| import_freight_pct := 0; duties_taxes_pct := 0; price_multiplier := 1 |}.

Definition default_channel_config : MarketChannelConfig :=
  {| commission_pct := 0; fulfillment_pct := 0; cod_pct := 0;
     returns_allowance_pct := 0; listing_fees_pct := 0;
     trade_terms_pct := 0; rebates_pct := 0; promo_accrual_pct := 0;
     retail_adoption_rate := Some 1; marketing_lift := Some 1;
     base_units_month := 0; channel_weight := 1;
     competitor_activity_idx := Some 0 |}.

(** ** What [calculate_sku] reads of its engine *)

(** Every call [self._get_setting(key, default)] that [calculate_sku]
    makes, directly or as the last tier of [_get_override]. *)
Definition engine_reads : list (string * R) :=
  [ ("consumer_trend_weight", 0.2); ("point_of_diff_weight", 0.2);
    ("channel_suitability_weight", 0.2); ("strategic_role_weight", 0.2);
    ("marketing_leverage_weight", 0.2);
    ("price_ladder_weight", 0.2); ("usage_occasion_weight", 0.2);
    ("channel_diff_weight", 0.2); ("story_cohesion_weight", 0.2);
    ("operational_synergy_weight", 0.2);
    ("regulatory_delay_weight", 0.2); ("retail_listing_weight", 0.2);
    ("competitive_weight", 0.2); ("supply_chain_weight", 0.2);
    ("price_war_weight", 0.2);
    ("global_risk_floor", 0.6); ("global_risk_slope", 0.25);
    ("price_elasticity_abs", 1.5);
    ("marketing_lift", 1); ("adoption_rate", 1); ("competitor_idx", 1);
    ("risk_penalty_cap", 0.4); ("global_price_adjustment_pct", 0);
    ("scenario_base_price_delta", 0); ("scenario_base_marketing_mult", 1);
    ("scenario_base_adoption_mult", 1); ("scenario_base_competitor_mult", 1);
    ("scenario_best_price_delta", -0.05); ("scenario_best_marketing_mult", 1.15);
    ("scenario_best_adoption_mult", 1.2); ("scenario_best_competitor_mult", 0.9);
    ("scenario_worst_price_delta", 0.10); ("scenario_worst_marketing_mult", 0.85);
    ("scenario_worst_adoption_mult", 0.8); ("scenario_worst_competitor_mult", 1.2);
    ("launch_now_min_score", 4); ("launch_now_max_risk", 2.5);
    ("gm_floor_pct", 0.35) ].

(** Two engines answer these calls alike. *)
Definition reads_agree (self self' : CalculationEngine) : Prop :=
  ∀ key dflt, In (key, dflt) engine_reads →
    _get_setting self key dflt = _get_setting self' key dflt.

(** What the engine makes of the look-up of a market: an absent market
    passes price and cost through. *)
Definition market_view (o : option MarketConfig) : MarketConfig :=
  default default_market_config o.

Definition with_markets (self : CalculationEngine) (ms : gmap string MarketConfig)
    : CalculationEngine :=
  {| settings := settings self; markets := ms;
     market_channels := market_channels self;
     market_categories := market_categories self |}.

Definition with_channels (self : CalculationEngine)
    (cs : gmap string MarketChannelConfig) : CalculationEngine :=
  {| settings := settings self; markets := markets self;
     market_channels := cs;
     market_categories := market_categories self |}.

(** ** The stored tables ([services/recalculator.py], [services/excel_parser.py])

    A table is the list of rows a [select] returns, in the order it
    returns them.  A row is its key columns and the configuration
    record of the engine. *)

Module Store.

(** Modelled from the spec: the class [GlobalSetting] of
    [app/models/settings.py], which is not among the sources; a named
    floating-point constant, with the two columns the services read. *)
Record GlobalSetting := {
  setting_key : string;
  setting_value : R;
}.

Record market_row := {
  market_name : string;
  market_config : MarketConfig;
}.

Record channel_row := {
  channel_market_id : string;
  channel_name : string;
  channel_config : MarketChannelConfig;
}.

Record category_row := {
  category_market_id : string;
  category_channel : string;
  category_name : string;
  category_config : MarketCategoryConfig;
}.

(** A [SkuRecord] with its [cache] relationship. *)
Record sku_row := {
  sku : SkuRecord;
  cache : option SkuCalculationCache;
}.

(** [{key(r): r for r in rows}]: a later row replaces an earlier one
    under the same key. *)
Definition dict_of {A V : Type} (key : A → string) (value : A → V)
    (rows : list A) : gmap string V :=
  foldl (λ d r, <[key r := value r]> d) ∅ rows.

Definition channel_key (r : channel_row) : string :=
  channel_market_id r +:+ "_" +:+ channel_name r.

Definition category_key (r : category_row) : string :=
  category_market_id r +:+ "_" +:+ category_channel r +:+ "_" +:+ category_name r.

End Store.

Module Recalculator.

(** [build_calc_engine], from the results of its four queries. *)
Definition build_calc_engine (settings_res : list Store.GlobalSetting)
    (market_res : list Store.market_row) (channel_res : list Store.channel_row)
    (category_res : list Store.category_row) : CalculationEngine :=
  {| settings := Store.dict_of Store.setting_key Store.setting_value settings_res;
     markets := Store.dict_of Store.market_name Store.market_config market_res;
     market_channels :=
       Store.dict_of Store.channel_key Store.channel_config channel_res;
     market_categories :=
       Store.dict_of Store.category_key Store.category_config category_res |}.

(** One step of the loop [for k, v in new_cache.__dict__.items()]: the
    attribute is copied when the new object holds it, and the old value
    stays otherwise. *)
Definition copy_attr {A : Type} (new old : option A) : option A :=
  match new with
  | Some v => Some v
  | None => old
  end.

(** The whole loop.  [with_id] tells whether [sku_id] is copied too
    ([recalculate_all_skus]) or skipped ([_parse_skus]). *)
Definition copy_into (with_id : bool) (old new : SkuCalculationCache)
    : SkuCalculationCache :=
  {| cache_sku_id := if with_id then cache_sku_id new else cache_sku_id old;
     gm_dollar_per_unit := copy_attr (gm_dollar_per_unit new) (gm_dollar_per_unit old);
     gm_pct := copy_attr (gm_pct new) (gm_pct old);
     weighted_score_layer_b :=
       copy_attr (weighted_score_layer_b new) (weighted_score_layer_b old);
     channel_weighted_score :=
       copy_attr (channel_weighted_score new) (channel_weighted_score old);
     synergy_score_layer_c :=
       copy_attr (synergy_score_layer_c new) (synergy_score_layer_c old);
     risk_score_layer_d := copy_attr (risk_score_layer_d new) (risk_score_layer_d old);
     risk_factor := copy_attr (risk_factor new) (risk_factor old);
     adj_units_base := copy_attr (adj_units_base new) (adj_units_base old);
     adj_units_best := copy_attr (adj_units_best new) (adj_units_best old);
     adj_units_worst := copy_attr (adj_units_worst new) (adj_units_worst old);
     monthly_revenue := copy_attr (monthly_revenue new) (monthly_revenue old);
     monthly_gm_dollar := copy_attr (monthly_gm_dollar new) (monthly_gm_dollar old);
     monthly_gm_base := copy_attr (monthly_gm_base new) (monthly_gm_base old);
     monthly_gm_best := copy_attr (monthly_gm_best new) (monthly_gm_best old);
     monthly_gm_worst := copy_attr (monthly_gm_worst new) (monthly_gm_worst old);
     pass_regulatory := copy_attr (pass_regulatory new) (pass_regulatory old);
     pass_supply_ready := copy_attr (pass_supply_ready new) (pass_supply_ready old);
     pass_gm_floor := copy_attr (pass_gm_floor new) (pass_gm_floor old);
     final_recommendation :=
       copy_attr (final_recommendation new) (final_recommendation old);
     select_for_wave_1 := copy_attr (select_for_wave_1 new) (select_for_wave_1 old) |}.

(** The body of the loop of [recalculate_all_skus] for one SKU. *)
Definition recalculate_sku (engine : CalculationEngine) (db_sku : Store.sku_row)
    : result Store.sku_row :=
  new_cache ← calculate_sku engine (Store.sku db_sku);
  mret {| Store.sku := Store.sku db_sku;
          Store.cache :=
            Some match Store.cache db_sku with
                 | Some old => copy_into true old new_cache
                 | None => new_cache
                 end |}.

(** The loop: the SKUs in order, stopping at the first exception, in
    which case the commit is not reached. *)
Fixpoint recalculate_skus (engine : CalculationEngine) (skus : list Store.sku_row)
    : result (list Store.sku_row) :=
  match skus with
  | [] => mret []
  | db_sku :: rest =>
      db_sku' ← recalculate_sku engine db_sku;
      rest' ← recalculate_skus engine rest;
      mret (db_sku' :: rest')
  end.

Definition recalculate_all_skus (settings_res : list Store.GlobalSetting)
    (market_res : list Store.market_row) (channel_res : list Store.channel_row)
    (category_res : list Store.category_row) (skus : list Store.sku_row)
    : result (list Store.sku_row) :=
  recalculate_skus
    (build_calc_engine settings_res market_res channel_res category_res) skus.

End Recalculator.

Module ExcelParser.

(** The tables [_seed_default_configs] reads and writes. *)
Record database := {
  db_settings : list Store.GlobalSetting;
  db_markets : list Store.market_row;
  db_channels : list Store.channel_row;
}.

Definition default_settings : list (string * R) :=
  [ ("consumer_trend_weight", 0.2); ("point_of_diff_weight", 0.2);
    ("channel_suitability_weight", 0.2);
    ("strategic_role_weight", 0.2); ("marketing_leverage_weight", 0.2);
    ("price_ladder_weight", 0.2);
    ("usage_occasion_weight", 0.2); ("channel_diff_weight", 0.2);
    ("story_cohesion_weight", 0.2);
    ("operational_synergy_weight", 0.2); ("regulatory_delay_weight", 0.2);
    ("retail_listing_weight", 0.2);
    ("competitive_weight", 0.2); ("supply_chain_weight", 0.2);
    ("price_war_weight", 0.2);
    ("launch_now_min_score", 4); ("launch_now_max_risk", 2.5);
    ("phase_later_min_score", 3);
    ("phase_later_max_risk", 3.5); ("price_multiplier", 1);
    ("import_freight_pct", 0.1);
    ("duties_taxes_pct", 0.15); ("listing_breadth_index", 0.2);
    ("gm_floor_pct", 0.35) ].

Definition seed_markets : list string := [ "Nepal"; "India"; "UAE" ].

(** One entry of the list [channels]. *)
Record channel_seed := {
  c_name : string;
  c_units : R;
  c_weight : R;
  c_adopt : R;
  c_market : R;
}.

Definition seed_channels : list channel_seed :=
  [ {| c_name := "E-Com"; c_units := 500; c_weight := 0.35;
       c_adopt := 0.85; c_market := 1.1 |};
    {| c_name := "MT"; c_units := 350; c_weight := 0.3;
       c_adopt := 0.7; c_market := 1.0 |};
    {| c_name := "GT"; c_units := 250; c_weight := 0.2;
       c_adopt := 0.55; c_market := 0.95 |};
    {| c_name := "Rx/Clinic"; c_units := 500; c_weight := 0.15;
       c_adopt := 0.6; c_market := 1.05 |} ].

(** The [MarketChannelConfig(...)] the seeding builds for a channel;
    the competitor index is left to its column default. *)
Definition seeded_channel_config (c : channel_seed) : MarketChannelConfig :=
  let ch_name := c_name c in
  {| commission_pct := if decide (ch_name = "E-Com") then 0.12 else 0;
     fulfillment_pct := if decide (ch_name = "E-Com") then 0.03 else 0.02;
     cod_pct := if decide (ch_name = "E-Com") then 0.02 else 0;
     returns_allowance_pct := if decide (ch_name = "E-Com") then 0.02 else 0.01;
     listing_fees_pct := if decide (ch_name = "MT") then 0.02 else 0;
     trade_terms_pct :=
       if decide (ch_name = "MT") then 0.1
       else if decide (ch_name ≠ "E-Com") then 0.08 else 0;
     rebates_pct :=
       if decide (ch_name ≠ "Rx/Clinic" ∧ ch_name ≠ "E-Com") then 0.02 else 0;
     promo_accrual_pct := if decide (ch_name = "MT") then 0.03 else 0.02;
     retail_adoption_rate := Some (c_adopt c);
     marketing_lift := Some (c_market c);
     base_units_month := c_units c;
     channel_weight := c_weight c;
     competitor_activity_idx := Some 0 |}.

(** [select(GlobalSetting).filter_by(setting_key=k)] finds a row. *)
Definition has_setting (rows : list Store.GlobalSetting) (k : string) : bool :=
  bool_decide (k ∈ Store.setting_key <$> rows).

Definition has_market (rows : list Store.market_row) (m : string) : bool :=
  bool_decide (m ∈ Store.market_name <$> rows).

Definition has_channel (rows : list Store.channel_row) (m ch : string) : bool :=
  bool_decide ((m, ch) ∈ (λ r, (Store.channel_market_id r, Store.channel_name r)) <$> rows).

(** The bodies of the three loops: a row is added only under a key
    that has none. *)
Definition seed_setting (rows : list Store.GlobalSetting) (kv : string * R)
    : list Store.GlobalSetting :=
  if has_setting rows kv.1 then rows
  else rows ++ [ {| Store.setting_key := kv.1; Store.setting_value := kv.2 |} ].

Definition seed_market (rows : list Store.market_row) (m : string)
    : list Store.market_row :=
  if has_market rows m then rows
  else rows ++ [ {| Store.market_name := m;
                    Store.market_config := default_market_config |} ].

Definition seed_channel (rows : list Store.channel_row) (mc : string * channel_seed)
    : list Store.channel_row :=
  if has_channel rows mc.1 (c_name mc.2) then rows
  else rows ++ [ {| Store.channel_market_id := mc.1;
                    Store.channel_name := c_name mc.2;
                    Store.channel_config := seeded_channel_config mc.2 |} ].

Definition _seed_default_configs (db : database) : database :=
  {| db_settings := foldl seed_setting (db_settings db) default_settings;
     db_markets := foldl seed_market (db_markets db) seed_markets;
     db_channels :=
       foldl seed_channel (db_channels db)
             (m ← seed_markets; c ← seed_channels; [(m, c)]) |}.

End ExcelParser.

(** ** Vocabulary of the further properties *)

(** The string holds the separator of the composite keys. *)
Fixpoint has_underscore (s : string) : bool :=
  match s with
  | EmptyString => false
  | String a s => bool_decide (String a "" = "_") || has_underscore s
  end.

(** The primary key of a channel row. *)
Definition channel_pk (r : Store.channel_row) : string * string :=
  (Store.channel_market_id r, Store.channel_name r).

(** The composite key under which the seeding of [_seed_default_configs]
    would put the channel row of a market and a channel. *)
Definition seed_key (mc : string * ExcelParser.channel_seed) : string :=
  mc.1 +:+ "_" +:+ ExcelParser.c_name mc.2.

Definition seed_grid : list (string * ExcelParser.channel_seed) :=
  m ← ExcelParser.seed_markets; c ← ExcelParser.seed_channels; [(m, c)].

(** The settings that enter the price effect of a scenario, and the
    condition that none of them is configured: the price-effective
    index is then 1, the price deltas 0, -0.05 and 0.10, the elasticity
    1.5. *)
Definition price_setting_keys : list string :=
  [ "global_price_adjustment_pct"; "scenario_base_price_delta";
    "scenario_best_price_delta"; "scenario_worst_price_delta";
    "price_elasticity_abs" ].

Definition no_price_settings (self : CalculationEngine) : Prop :=
  Forall (λ k, settings self !! k = None) price_setting_keys.


(** The SKU with each of its fifteen ratings set to [r]. *)
Definition rated (sku : SkuRecord) (r : option Z) : SkuRecord :=
  {| sku_id := sku_id sku; category := category sku;
     target_market := target_market sku; primary_channel := primary_channel sku;
     local_list_price := local_list_price sku; landed_cost := landed_cost sku;
     score_consumer_trend := r; score_point_of_diff := r;
     score_channel_suitability := r; score_strategic_role := r;
     score_marketing_leverage := r;
     score_price_ladder := r; score_usage_occasion := r;
     score_channel_diff := r; score_story_cohesion := r;
     score_operational_synergy := r;
     score_regulatory_delay := r; score_retail_listing := r;
     score_competitive := r; score_supply_chain := r;
     score_price_war := r;
     regulatory_eligible := regulatory_eligible sku;
     regulatory_prohibition := regulatory_prohibition sku;
     ip_risk_high := ip_risk_high sku; supply_ready := supply_ready sku |}.

(** An engine without any configuration. *)
Definition bare_engine : CalculationEngine :=
  {| settings := ∅; markets := ∅; market_channels := ∅; market_categories := ∅ |}.

(** The shape of the three loops of [_seed_default_configs]: an item
    gets a row unless a row with its primary key is there. *)
Definition add_if_missing {Row Item K : Type} `{EqDecision K}
    (row_pk : Row → K) (item_pk : Item → K) (make : Item → Row)
    (rows : list Row) (i : Item) : list Row :=
  if bool_decide (item_pk i ∈ row_pk <$> rows) then rows else rows ++ [make i].

(** ** Basic facts about the embedding *)

Lemma bind_Ok_inv {A B} (m : result A) (f : A → result B) (b : B) :
  m ≫= f = Ok b → ∃ a, m = Ok a ∧ f a = Ok b.
Proof. destruct m as [a|e]; [eauto | discriminate]. Qed.

Lemma bind_Ok {A B} (a : A) (f : A → result B) : Ok a ≫= f = f a.
Proof. reflexivity. Qed.

Lemma truthy_str_true (s : option string) :
  Py.truthy_str s = true ↔ ∃ v, s = Some v ∧ v ≠ "".
Proof.
  destruct s as [v|]; simpl.
  - rewrite bool_decide_eq_true. split; [eauto | intros (w & [= <-] & ?); done].
  - split; [done | intros (w & ? & _); done].
Qed.

Lemma truthy_str_false (s : option string) :
  Py.truthy_str s = false ↔ s = None ∨ s = Some "".
Proof.
  destruct s as [v|]; simpl.
  - rewrite bool_decide_eq_false. split.
    + intros Hv. right. f_equal. by destruct (decide (v = "")).
    + intros [|[= ->]]; [done | tauto].
  - split; [by left | done].
Qed.

Section Facts.

Variable self : CalculationEngine.
Implicit Types (sku : SkuRecord) (market channel : string) (s : scenario).

Lemma guard_passes sku market channel :
  targets sku market channel →
  calculate_sku self sku = calculate_full self sku market channel.
Proof.
  intros (Hm & Hme & Hc & Hce). unfold calculate_sku. rewrite Hm, Hc. simpl.
  by rewrite !bool_decide_eq_true_2.
Qed.

Lemma guard_stops sku :
  Py.truthy_str (target_market sku) = false
  ∨ Py.truthy_str (primary_channel sku) = false →
  calculate_sku self sku = Ok (new_cache (sku_id sku)).
Proof.
  unfold calculate_sku. intros [-> | ->]; simpl; [done |].
  by rewrite orb_true_r.
Qed.

Lemma targets_truthy sku :
  Py.truthy_str (target_market sku) = true →
  Py.truthy_str (primary_channel sku) = true →
  ∃ market channel, targets sku market channel.
Proof.
  intros (m & ? & ?)%truthy_str_true (c & ? & ?)%truthy_str_true.
  by exists m, c.
Qed.

Lemma price_effect_zero_divisor s :
  price_divisor self s = 0 → price_effect self s = Raise ZeroDivisionError.
Proof.
  intros Hd. unfold price_effect, Py.div. fold (price_divisor self s).
  by rewrite decide_True.
Qed.

Lemma price_effect_Ok_divisor s v :
  price_effect self s = Ok v → price_divisor self s ≠ 0.
Proof.
  intros Hv Hd. rewrite (price_effect_zero_divisor _ Hd) in Hv. discriminate.
Qed.

(** On a positive divisor and an exponent other than 0 the price effect
    that is returned is the real power. *)
Lemma price_effect_positive s v :
  0 < price_divisor self s →
  price_elasticity self ≠ 0 →
  price_effect self s = Ok v →
  v = PyFloat (Rpower (1 / price_divisor self s) (price_elasticity self)).
Proof.
  intros Hd He. unfold price_effect, Py.div. fold (price_divisor self s).
  rewrite decide_False by lra. rewrite bind_Ok.
  assert (0 < 1 / price_divisor self s) by (apply Rdiv_lt_0_compat; lra).
  unfold Py.pow. rewrite decide_False by done.
  rewrite decide_False by lra. rewrite decide_True by done.
  case_decide; [discriminate | by intros [= <-]].
Qed.

(** A power that fits: the base is at most 2, the exponent 1.5. *)
Lemma pow_fits (x : R) :
  0 < x <= 2 → Py.pow x 1.5 = Ok (PyFloat (Rpower x 1.5)).
Proof.
  intros [Hx Hx2]. unfold Py.pow.
  rewrite decide_False by lra. rewrite decide_False by lra.
  rewrite decide_True by done. rewrite decide_False; [done |].
  unfold Py.overflows, Py.float_limit. apply Rlt_not_le.
  assert (Hpos : 0 < Rpower x 1.5) by (unfold Rpower; apply exp_pos).
  rewrite Rabs_pos_eq by lra.
  apply Rle_lt_trans with (Rpower 2 1.5); [apply Rle_Rpower_l; lra |].
  apply Rle_lt_trans with (Rpower 2 (INR 2)).
  { apply Rle_Rpower; [lra |]. simpl. lra. }
  rewrite Rpower_pow by lra.
  apply Rlt_le_trans with (2 ^ 3).
  - simpl. lra.
  - apply Rle_pow; [lra | lia].
Qed.

Lemma price_effect_fits s :
  price_elasticity self = 1.5 →
  0.5 <= price_divisor self s →
  price_effect self s
  = Ok (PyFloat (Rpower (1 / price_divisor self s) 1.5)).
Proof.
  intros He Hd. unfold price_effect, Py.div. fold (price_divisor self s).
  rewrite decide_False by lra. rewrite bind_Ok, He. apply pow_fits.
  split; [apply Rdiv_lt_0_compat; lra |].
  apply Rmult_le_reg_r with (price_divisor self s); [lra |].
  unfold Rdiv. rewrite Rmult_assoc, Rinv_l by lra. lra.
Qed.


Lemma scenario_units_Ok_divisor sku market channel s u :
  scenario_units self sku market channel s = Ok u → price_divisor self s ≠ 0.
Proof.
  unfold scenario_units. intros (v & Hv & _)%bind_Ok_inv.
  by eapply price_effect_Ok_divisor.
Qed.

(** What a returned snapshot looks like. *)
Lemma calculate_full_inv sku market channel c :
  calculate_full self sku market channel = Ok c →
  ∃ ub ut uw,
    scenario_units self sku market channel (sc_base (scenarios self)) = Ok ub
    ∧ scenario_units self sku market channel (sc_best (scenarios self)) = Ok ut
    ∧ scenario_units self sku market channel (sc_worst (scenarios self)) = Ok uw
    ∧ c = snapshot self sku market channel ub ut uw.
Proof.
  unfold calculate_full.
  intros (ub & Hb & (ut & Ht & (uw & Hw & [= <-])%bind_Ok_inv)%bind_Ok_inv)%bind_Ok_inv.
  by exists ub, ut, uw.
Qed.

Lemma calculate_full_intro sku market channel ub ut uw :
  scenario_units self sku market channel (sc_base (scenarios self)) = Ok ub →
  scenario_units self sku market channel (sc_best (scenarios self)) = Ok ut →
  scenario_units self sku market channel (sc_worst (scenarios self)) = Ok uw →
  calculate_full self sku market channel
  = Ok (snapshot self sku market channel ub ut uw).
Proof. unfold calculate_full. by intros -> -> ->. Qed.

Lemma calculate_full_Ok_divisors sku market channel c :
  calculate_full self sku market channel = Ok c → divisors_nonzero self.
Proof.
  intros (ub & ut & uw & Hb & Ht & Hw & _)%calculate_full_inv.
  repeat split; by eapply scenario_units_Ok_divisor.
Qed.

Lemma snapshot_fully_computed sku market channel ub ut uw :
  fully_computed (snapshot self sku market channel ub ut uw).
Proof. repeat split; by eexists. Qed.

End Facts.

(** ** The override resolver *)

Lemma getattr_category_override (f : field) (c : MarketCategoryConfig) :
  getattr_category c (field_name f +:+ "_override") = category_override f c.
Proof. by destruct f. Qed.

Lemma getattr_channel_mapped (f : field) (c : MarketChannelConfig) :
  getattr_channel c (_map_field_name (field_name f)) = channel_value f c.
Proof. by destruct f. Qed.

(** C1.  For each of the three fields of the resolver's namespace,
    [_get_override] is the cascade of the specification: the non-null
    category override under the key of (market, channel, category) wins;
    otherwise the non-null channel attribute named by the translation
    table (adoption_rate to retail_adoption_rate, marketing_lift to
    marketing_lift, competitor_idx to competitor_activity_idx) under the
    key of (market, channel); otherwise the global setting under the
    original field name; otherwise the caller's default. *)
Theorem get_override_cascade (self : CalculationEngine)
    (market channel category : string) (f : field) (dflt : R) :
  _get_override self market channel category (field_name f) dflt
  = resolve_spec self market channel category f dflt.
Proof.
  unfold _get_override, resolve_spec, category_tier, channel_tier, _get_setting.
  destruct (market_categories self !! _) as [cc|]; simpl.
  - rewrite getattr_category_override.
    destruct (category_override f cc); [done |].
    destruct (market_channels self !! _) as [mc|]; simpl.
    + rewrite getattr_channel_mapped. destruct (channel_value f mc); [done |].
      by destruct (settings self !! _).
    + by destruct (settings self !! _).
  - destruct (market_channels self !! _) as [mc|]; simpl.
    + rewrite getattr_channel_mapped. destruct (channel_value f mc); [done |].
      by destruct (settings self !! _).
    + by destruct (settings self !! _).
Qed.

(** ** The guard of [calculate_sku] *)

(** C2, as the claim states it, fails: a SKU that has a target market
    but no primary channel gets the empty snapshot. *)
Lemma market_without_channel_is_degenerate :
  let sku := Sample.sku (Some "India") None (Some 100) (Some 40) None in
  Py.truthy_str (target_market sku) = true
  ∧ calculate_sku Sample.engine sku = Ok (new_cache "SKU-1").
Proof. split; reflexivity. Qed.

(** C2, amended.  [calculate_sku] returns the empty snapshot, which
    carries the SKU id and leaves every derived field unset, exactly
    when the SKU lacks a target market or lacks a primary channel; in
    that case it returns it without raising.  When both are present,
    every snapshot it returns is fully computed. *)
Theorem degenerate_iff_market_or_channel_missing
    (self : CalculationEngine) (sku : SkuRecord) :
  (calculate_sku self sku = Ok (new_cache (sku_id sku))
   ↔ Py.truthy_str (target_market sku) = false
     ∨ Py.truthy_str (primary_channel sku) = false)
  ∧ (∀ c, Py.truthy_str (target_market sku) = true →
          Py.truthy_str (primary_channel sku) = true →
          calculate_sku self sku = Ok c → fully_computed c).
Proof.
  assert (Hfull : ∀ c, Py.truthy_str (target_market sku) = true →
            Py.truthy_str (primary_channel sku) = true →
            calculate_sku self sku = Ok c → fully_computed c).
  { intros c Hm Hc Hr.
    destruct (targets_truthy sku Hm Hc) as (market & channel & Ht).
    rewrite (guard_passes self _ _ _ Ht) in Hr.
    apply calculate_full_inv in Hr as (ub & ut & uw & _ & _ & _ & ->).
    apply snapshot_fully_computed. }
  split; [split | exact Hfull].
  - intros Hr.
    destruct (Py.truthy_str (target_market sku)) eqn:Hm; [| by left].
    destruct (Py.truthy_str (primary_channel sku)) eqn:Hc; [| by right].
    destruct (Hfull _ eq_refl eq_refl Hr) as [[? [=]] _].
  - apply guard_stops.
Qed.

(** C10.  The presence test is falsiness: a SKU whose target market or
    primary channel is the empty string takes the short-circuit and gets
    the empty snapshot carrying only its id, the same result as with the
    attribute null. *)
Theorem empty_string_short_circuits (self : CalculationEngine) (sku sku' : SkuRecord) :
  target_market sku = Some "" ∨ primary_channel sku = Some "" →
  sku_id sku' = sku_id sku →
  target_market sku' = None ∨ primary_channel sku' = None →
  calculate_sku self sku = Ok (new_cache (sku_id sku))
  ∧ calculate_sku self sku = calculate_sku self sku'.
Proof.
  intros Hempty Hid Hnull.
  assert (calculate_sku self sku = Ok (new_cache (sku_id sku))) as ->.
  { apply guard_stops. rewrite !truthy_str_false. tauto. }
  split; [done |]. rewrite <- Hid. symmetry.
  apply guard_stops. rewrite !truthy_str_false. tauto.
Qed.

Lemma empty_string_short_circuits_witness :
  calculate_sku Sample.engine (Sample.sku (Some "") (Some "E-Com") None None None)
  = Ok (new_cache "SKU-1")
  ∧ calculate_sku Sample.engine (Sample.sku (Some "") (Some "E-Com") None None None)
    = calculate_sku Sample.engine (Sample.sku None (Some "E-Com") None None None).
Proof.
  apply (empty_string_short_circuits Sample.engine
           (Sample.sku (Some "") (Some "E-Com") None None None)
           (Sample.sku None (Some "E-Com") None None None)).
  - left; reflexivity.
  - reflexivity.
  - left; reflexivity.
Defined.

(** ** Financials *)

Section Financials.

Variable self : CalculationEngine.
Implicit Types (sku : SkuRecord) (market channel : string).

Lemma returned_snapshot sku market channel c :
  targets sku market channel →
  calculate_sku self sku = Ok c →
  ∃ ub ut uw,
    scenario_units self sku market channel (sc_base (scenarios self)) = Ok ub
    ∧ scenario_units self sku market channel (sc_best (scenarios self)) = Ok ut
    ∧ scenario_units self sku market channel (sc_worst (scenarios self)) = Ok uw
    ∧ c = snapshot self sku market channel ub ut uw.
Proof.
  intros Ht Hc. rewrite (guard_passes self _ _ _ Ht) in Hc.
  by apply calculate_full_inv.
Qed.

Lemma adj_list_price_formula sku market :
  adj_list_price self sku market
  = Py.or_zero (local_list_price sku)
    * from_option price_multiplier 1 (markets self !! market).
Proof.
  unfold adj_list_price, base_list_price.
  destruct (markets self !! market); simpl; lra.
Qed.

Lemma imported_cogs_formula sku market :
  imported_cogs self sku market
  = Py.or_zero (landed_cost sku)
    * (1 + from_option import_freight_pct 0 (markets self !! market))
    * (1 + from_option duties_taxes_pct 0 (markets self !! market)).
Proof.
  unfold imported_cogs, base_landed_cost.
  destruct (markets self !! market); simpl; lra.
Qed.

Lemma cts_pct_formula market channel :
  cts_pct self market channel
  = from_option cts_total 0 (market_channels self !! (market +:+ "_" +:+ channel)).
Proof. unfold cts_pct. by destruct (market_channels self !! _). Qed.

End Financials.

(** *** An engine without price settings *)

Lemma get_setting_absent (self : CalculationEngine) (key : string) (dflt : R) :
  settings self !! key = None → _get_setting self key dflt = dflt.
Proof. unfold _get_setting. by intros ->. Qed.

Lemma scenarios_without_settings (self : CalculationEngine) :
  settings self = ∅ → scenarios self = default_scenarios.
Proof.
  intros He. unfold scenarios, default_scenarios, _get_setting.
  by rewrite He, !lookup_empty.
Qed.

Lemma price_eff_index_without_settings (self : CalculationEngine) :
  settings self = ∅ → price_eff_index self = 1.
Proof.
  intros He. unfold price_eff_index, _get_setting.
  rewrite He, lookup_empty. simpl. lra.
Qed.

Lemma no_settings_no_price_settings (self : CalculationEngine) :
  settings self = ∅ → no_price_settings self.
Proof.
  intros He. unfold no_price_settings, price_setting_keys. rewrite He.
  repeat (apply Forall_cons; split; [apply lookup_empty |]). by apply Forall_nil.
Qed.

(** Without price settings the three divisors are 1, 0.95 and 1.1 and
    the exponent is 1.5. *)
Lemma default_prices (self : CalculationEngine) :
  no_price_settings self →
  price_elasticity self = 1.5
  ∧ price_divisor self (sc_base (scenarios self)) = 1
  ∧ price_divisor self (sc_best (scenarios self)) = 0.95
  ∧ price_divisor self (sc_worst (scenarios self)) = 1.1.
Proof.
  unfold no_price_settings, price_setting_keys. intros H.
  apply Forall_cons in H as [Hadj H]. apply Forall_cons in H as [Hb H].
  apply Forall_cons in H as [Ht H]. apply Forall_cons in H as [Hw H].
  apply Forall_cons in H as [He _].
  unfold price_elasticity, price_divisor, price_eff_index, scenarios. simpl.
  rewrite !get_setting_absent by done. repeat split; lra.
Qed.

(** Without price settings [calculate_sku] returns, with float units. *)
Lemma returns_without_price_settings (self : CalculationEngine) (sku : SkuRecord)
    (market channel : string) :
  targets sku market channel →
  no_price_settings self →
  ∃ ub ut uw,
    calculate_sku self sku
    = Ok (snapshot self sku market channel (PyFloat ub) (PyFloat ut) (PyFloat uw)).
Proof.
  intros Ht (He & Hb & Hbest & Hw)%default_prices.
  rewrite (guard_passes self _ _ _ Ht).
  do 3 eexists. apply calculate_full_intro; unfold scenario_units;
    rewrite (price_effect_fits _ _ He) by lra; reflexivity.
Qed.

Lemma sample_targets (price cost : option R) (ip : option bool) :
  targets (Sample.sku (Some "India") (Some "E-Com") price cost ip) "India" "E-Com".
Proof. by repeat split. Qed.

#[local] Set Warnings "-inexact-float".

(** C3, as the claim states it, fails on the last digits: in the
    binary64 arithmetic of the code, list price 100, landed cost 40,
    m = 1.1, f = 0.1, d = 0.15, c = 0.20 give neither 110 nor 50.6 nor
    37.4. *)
Lemma binary64_example_is_inexact :
  Binary64.adj_list_price 100 1.1 ≠ 110%float
  ∧ Binary64.imported_cogs 40 0.1 0.15 ≠ 50.6%float
  ∧ Binary64.gm_dollar_per_unit (Binary64.adj_list_price 100 1.1)
      (Binary64.imported_cogs 40 0.1 0.15) 0.2 ≠ 37.4%float.
Proof.
  repeat split; intros H.
  - apply (f_equal (λ x, PrimFloat.eqb x 110)) in H. vm_compute in H. discriminate.
  - apply (f_equal (λ x, PrimFloat.eqb x 50.6)) in H. vm_compute in H. discriminate.
  - apply (f_equal (λ x, PrimFloat.eqb x 37.4)) in H. vm_compute in H. discriminate.
Qed.

(** C3, amended.  With m, f, d the price multiplier, import-freight and
    duties-taxes percentages of the SKU's market (1, 0, 0 when the
    market is not configured) and c the CTS total of its channel (0 when
    the channel is not configured): adjusted list price = list price x m,
    imported cost = landed cost x (1+f) x (1+d), and the gross margin per
    unit of every returned snapshot is adjusted price - (imported cost +
    c x adjusted price).  List price 100, landed cost 40, m = 1.1,
    f = 0.1, d = 0.15, c = 0.20 give, in binary64, 110.00000000000001,
    50.599999999999994 and 37.40000000000002: the 110, 50.6 and 37.4 of
    exact arithmetic to within 1e-13. *)
Theorem margin_per_unit_formula (self : CalculationEngine) (sku : SkuRecord)
    (market channel : string) :
  targets sku market channel →
  let m := from_option price_multiplier 1 (markets self !! market) in
  let f := from_option import_freight_pct 0 (markets self !! market) in
  let d := from_option duties_taxes_pct 0 (markets self !! market) in
  let c := from_option cts_total 0
             (market_channels self !! (market +:+ "_" +:+ channel)) in
  let price := Py.or_zero (local_list_price sku) in
  let cost := Py.or_zero (landed_cost sku) in
  adj_list_price self sku market = price * m
  ∧ imported_cogs self sku market = cost * (1 + f) * (1 + d)
  ∧ (∀ cache, calculate_sku self sku = Ok cache →
       gm_dollar_per_unit cache
       = Some (price * m - (cost * (1 + f) * (1 + d) + c * (price * m))))
  ∧ (let adj := Binary64.adj_list_price 100 1.1 in
     let cogs := Binary64.imported_cogs 40 0.1 0.15 in
     let gm := Binary64.gm_dollar_per_unit adj cogs 0.2 in
     adj = 110.00000000000001 ∧ cogs = 50.599999999999994
     ∧ gm = 37.40000000000002
     ∧ (abs (adj - 110) <? 1e-13) = true
     ∧ (abs (cogs - 50.6) <? 1e-13) = true
     ∧ (abs (gm - 37.4) <? 1e-13) = true)%float.
Proof.
  intros Ht m f d c price cost.
  pose proof (adj_list_price_formula self sku market) as Ha.
  pose proof (imported_cogs_formula self sku market) as Hi.
  pose proof (cts_pct_formula self market channel) as Hc.
  fold m price in Ha. fold f d cost in Hi. fold c in Hc.
  split; [done |]. split; [done |]. split.
  - intros cache (ub & ut & uw & _ & _ & _ & ->)%(returned_snapshot self _ _ _ _ Ht).
    simpl. unfold gm_per_unit. by rewrite Ha, Hi, Hc.
  - repeat split; reflexivity.
Qed.

Lemma margin_per_unit_witness :
  let sku := Sample.sku (Some "India") (Some "E-Com") (Some 100) (Some 40) None in
  ∃ cache,
    calculate_sku Sample.engine sku = Ok cache
    ∧ gm_dollar_per_unit cache
      = Some (100 * 1.1
              - (40 * (1 + 0.1) * (1 + 0.15) + cts_total Sample.ecom * (100 * 1.1))).
Proof.
  intros sku.
  destruct (returns_without_price_settings Sample.engine sku "India" "E-Com"
              (sample_targets _ _ _) (no_settings_no_price_settings Sample.engine eq_refl))
    as (ub & ut & uw & Hr).
  eexists. split; [exact Hr |].
  destruct (margin_per_unit_formula Sample.engine sku "India" "E-Com"
              (sample_targets (Some 100) (Some 40) None)) as (_ & _ & H & _).
  exact (H _ Hr).
Defined.



(** ** Scores *)

Lemma unset_rating_term (w : R) : Py.int_or_zero None * w = 0.
Proof. unfold Py.int_or_zero. simpl. lra. Qed.

(** C7.  A missing rating enters its weighted sum as 0 (not as the
    neutral 3): its term is 0 whatever the weight.  Hence for a SKU with
    all fifteen ratings unset the fit, synergy and risk scores are 0 for
    every configuration of the weights, and so are the three scores of
    every returned snapshot. *)
Theorem unset_ratings_score_zero (self : CalculationEngine) (sku : SkuRecord)
    (market channel : string) :
  ratings_unset sku →
  (∀ w, Py.int_or_zero None * w = 0)
  ∧ score_b self sku = 0 ∧ score_c self sku = 0 ∧ score_d self sku = 0
  ∧ (targets sku market channel →
     ∀ cache, calculate_sku self sku = Ok cache →
       weighted_score_layer_b cache = Some 0
       ∧ synergy_score_layer_c cache = Some 0
       ∧ risk_score_layer_d cache = Some 0).
Proof.
  intros (B1 & B2 & B3 & B4 & B5 & S1 & S2 & S3 & S4 & S5
          & D1 & D2 & D3 & D4 & D5).
  assert (Hb : score_b self sku = 0).
  { unfold score_b. rewrite B1, B2, B3, B4, B5, !unset_rating_term. lra. }
  assert (Hc : score_c self sku = 0).
  { unfold score_c. rewrite S1, S2, S3, S4, S5, !unset_rating_term. lra. }
  assert (Hd : score_d self sku = 0).
  { unfold score_d. rewrite D1, D2, D3, D4, D5, !unset_rating_term. lra. }
  split; [apply unset_rating_term |]. do 3 (split; [done |]).
  intros Ht cache (ub & ut & uw & _ & _ & _ & ->)%(returned_snapshot self _ _ _ _ Ht).
  simpl. by rewrite Hb, Hc, Hd.
Qed.

Lemma unset_ratings_score_zero_witness :
  let sku := Sample.sku (Some "India") (Some "E-Com") (Some 100) (Some 40) None in
  ∃ cache,
    calculate_sku Sample.engine sku = Ok cache
    ∧ weighted_score_layer_b cache = Some 0
    ∧ synergy_score_layer_c cache = Some 0
    ∧ risk_score_layer_d cache = Some 0.
Proof.
  intros sku.
  destruct (returns_without_price_settings Sample.engine sku "India" "E-Com"
              (sample_targets _ _ _) (no_settings_no_price_settings Sample.engine eq_refl))
    as (ub & ut & uw & Hr).
  eexists. split; [exact Hr |].
  destruct (unset_ratings_score_zero Sample.engine sku "India" "E-Com")
    as (_ & _ & _ & _ & H).
  - by repeat split.
  - exact (H (sample_targets _ _ _) _ Hr).
Defined.

(** ** Rollups *)



(** ** Recommendation *)

(** C5.  For a SKU with target market and primary channel set, a true
    [ip_risk_high] (or a true [regulatory_prohibition]) makes the
    recommendation Do Not Launch and keeps the SKU out of wave 1, in
    every snapshot returned, whatever the gates, the scores and the
    thresholds: the rule is tested before the one for Launch Now. *)
Theorem do_not_launch_precedence (self : CalculationEngine) (sku : SkuRecord)
    (market channel : string) :
  targets sku market channel →
  ip_risk_high sku = Some true ∨ regulatory_prohibition sku = Some true →
  recommendation self sku market channel = ("Do Not Launch", false)
  ∧ (∀ cache, calculate_sku self sku = Ok cache →
       final_recommendation cache = Some "Do Not Launch"
       ∧ select_for_wave_1 cache = Some false).
Proof.
  intros Ht Hrisk.
  assert (Hrec : recommendation self sku market channel = ("Do Not Launch", false)).
  { unfold recommendation.
    destruct Hrisk as [-> | ->]; simpl; [done |]. by rewrite orb_true_r. }
  split; [done |].
  intros cache (ub & ut & uw & _ & _ & _ & ->)%(returned_snapshot self _ _ _ _ Ht).
  simpl. by rewrite Hrec.
Qed.

Lemma do_not_launch_precedence_witness :
  let sku := Sample.sku (Some "India") (Some "E-Com") (Some 100) (Some 40) (Some true) in
  ∃ cache, calculate_sku Sample.engine sku = Ok cache
           ∧ final_recommendation cache = Some "Do Not Launch"
           ∧ select_for_wave_1 cache = Some false.
Proof.
  intros sku.
  destruct (returns_without_price_settings Sample.engine sku "India" "E-Com"
              (sample_targets _ _ _) (no_settings_no_price_settings Sample.engine eq_refl))
    as (ub & ut & uw & Hr).
  eexists. split; [exact Hr |].
  destruct (do_not_launch_precedence Sample.engine sku "India" "E-Com"
              (sample_targets (Some 100) (Some 40) (Some true))) as (_ & H).
  - by left.
  - exact (H _ Hr).
Defined.

(** ** Totality *)





(** ** Scenario ordering *)

Lemma Rpower_le_base (x y e : R) : 0 < x → x <= y → 0 < e → Rpower x e <= Rpower y e.
Proof. intros Hx Hxy He. apply Rle_Rpower_l; lra. Qed.

Lemma Rpower_pos (x e : R) : 0 < Rpower x e.
Proof. unfold Rpower. apply exp_pos. Qed.

Lemma inv_divisor_le (p a b : R) : 0 < p → 0 < a → a <= b → 1 / (p * b) <= 1 / (p * a).
Proof.
  intros Hp Ha Hab. unfold Rdiv. rewrite !Rmult_1_l.
  apply Rinv_le_contravar; nra.
Qed.

Lemma inv_divisor_pos (p a : R) : 0 < p → 0 < a → 0 < 1 / (p * a).
Proof. intros Hp Ha. apply Rdiv_lt_0_compat; nra. Qed.

(** The three volumes under the default scenario table. *)
Lemma default_scenario_order (C p e : R) :
  0 < C → 0 < p → 0 < e →
  C * Rpower (1 / (p * (1 + 0.10))) e * 0.85 * 0.8 * 1.2
  <= C * Rpower (1 / (p * (1 + 0))) e * 1 * 1 * 1
  ∧ C * Rpower (1 / (p * (1 + 0))) e * 1 * 1 * 1
    <= C * Rpower (1 / (p * (1 + -0.05))) e * 1.15 * 1.2 * 0.9.
Proof.
  intros HC Hp He.
  pose proof (Rpower_pos (1 / (p * (1 + 0.10))) e) as Hw.
  pose proof (Rpower_pos (1 / (p * (1 + 0))) e) as Hb.
  assert (Hwb : Rpower (1 / (p * (1 + 0.10))) e <= Rpower (1 / (p * (1 + 0))) e).
  { apply Rpower_le_base; [apply inv_divisor_pos | apply inv_divisor_le | done]; lra. }
  assert (Hbt : Rpower (1 / (p * (1 + 0))) e <= Rpower (1 / (p * (1 + -0.05))) e).
  { apply Rpower_le_base; [apply inv_divisor_pos | apply inv_divisor_le | done]; lra. }
  split; nra.
Qed.

(** C4.  With the default scenario settings, a positive common unit
    multiplier, a positive price-effective index and a positive price
    elasticity, [calculate_sku] returns a snapshot whose adjusted units
    are floats ordered worst <= base <= best. *)

(** What the snapshot holds under the default scenario table. *)
Lemma default_scenarios_units (self : CalculationEngine) (sku : SkuRecord)
    (market channel : string) (cache : SkuCalculationCache) :
  targets sku market channel →
  scenarios self = default_scenarios →
  0 < common_units_mult self sku market channel →
  0 < price_eff_index self →
  0 < price_elasticity self →
  calculate_sku self sku = Ok cache →
  ∃ worst base best,
    cache = snapshot self sku market channel (PyFloat base) (PyFloat best) (PyFloat worst)
    ∧ worst <= base ∧ base <= best.
Proof.
  intros Ht Hs HC Hp He Hr.
  assert (Hunits : ∀ s u, 0 < 1 + price_delta s →
            scenario_units self sku market channel s = Ok u →
            u = PyFloat (common_units_mult self sku market channel
                         * Rpower (1 / (price_eff_index self * (1 + price_delta s)))
                             (price_elasticity self)
                         * marketing_mult s * adoption_mult s * competitor_mult s)).
  { intros s u Hds. unfold scenario_units.
    intros (e & He' & [= <-])%bind_Ok_inv.
    apply price_effect_positive in He'; [| unfold price_divisor; nra | lra].
    by subst e. }
  apply (returned_snapshot self _ _ _ _ Ht) in Hr as (ub & ut & uw & Hb & Hbest & Hw & ->).
  apply Hunits in Hb; [| rewrite Hs; simpl; lra].
  apply Hunits in Hbest; [| rewrite Hs; simpl; lra].
  apply Hunits in Hw; [| rewrite Hs; simpl; lra].
  subst ub ut uw. do 3 eexists. split; [done |].
  rewrite Hs. simpl. by apply default_scenario_order.
Qed.

(** C4.  With the default scenario settings, a positive common unit
    multiplier, a positive price-effective index and a positive price
    elasticity, the adjusted units of every returned snapshot are floats
    ordered worst <= base <= best. *)
Theorem scenario_units_ordered (self : CalculationEngine) (sku : SkuRecord)
    (market channel : string) (cache : SkuCalculationCache) :
  targets sku market channel →
  scenarios self = default_scenarios →
  0 < common_units_mult self sku market channel →
  0 < price_eff_index self →
  0 < price_elasticity self →
  calculate_sku self sku = Ok cache →
  ∃ worst base best,
    adj_units_worst cache = Some (PyFloat worst)
    ∧ adj_units_base cache = Some (PyFloat base)
    ∧ adj_units_best cache = Some (PyFloat best)
    ∧ worst <= base ∧ base <= best.
Proof.
  intros Ht Hs HC Hp He Hr.
  destruct (default_scenarios_units self sku market channel cache Ht Hs HC Hp He Hr)
    as (w & b & t & -> & Hwb & Hbt).
  exists w, b, t. by repeat split.
Qed.

Lemma score_multiplier_lower (self : CalculationEngine) (sku : SkuRecord)
    (market channel : string) :
  0.6 <= score_multiplier self sku market channel.
Proof. apply Rmax_l. Qed.

Lemma risk_factor_lower (self : CalculationEngine) (sku : SkuRecord) :
  _get_setting self "global_risk_floor" 0.6 <= risk_factor_of self sku.
Proof. apply Rmax_l. Qed.

Lemma marketing_factor_lower (self : CalculationEngine) (sku : SkuRecord)
    (market channel : string) :
  0.85 <= marketing_factor self sku market channel.
Proof. apply Rmax_l. Qed.

Lemma competitor_factor_lower (self : CalculationEngine) (sku : SkuRecord)
    (market channel : string) :
  0.6 <= competitor_factor self sku market channel.
Proof. apply Rmax_r. Qed.

Lemma sample_common_units_positive (price cost : option R) (ip : option bool) :
  0 < common_units_mult Sample.engine
        (Sample.sku (Some "India") (Some "E-Com") price cost ip) "India" "E-Com".
Proof.
  set (sku := Sample.sku _ _ _ _ _). unfold common_units_mult.
  pose proof (score_multiplier_lower Sample.engine sku "India" "E-Com").
  pose proof (risk_factor_lower Sample.engine sku) as Hr.
  pose proof (marketing_factor_lower Sample.engine sku "India" "E-Com").
  pose proof (competitor_factor_lower Sample.engine sku "India" "E-Com").
  change (_get_setting Sample.engine "global_risk_floor" 0.6) with 0.6 in Hr.
  change (base_units Sample.engine "India" "E-Com") with 500.
  change (adoption_factor Sample.engine sku "India" "E-Com") with 0.85.
  unfold ramp_factor.
  do 6 (apply Rmult_lt_0_compat; [| lra]). lra.
Qed.


Lemma scenario_units_ordered_witness :
  ∃ cache worst base best,
    calculate_sku Sample.engine
      (Sample.sku (Some "India") (Some "E-Com") (Some 100) (Some 40) None) = Ok cache
    ∧ adj_units_worst cache = Some (PyFloat worst)
    ∧ adj_units_base cache = Some (PyFloat base)
    ∧ adj_units_best cache = Some (PyFloat best)
    ∧ worst <= base ∧ base <= best.
Proof.
  destruct (returns_without_price_settings Sample.engine
              (Sample.sku (Some "India") (Some "E-Com") (Some 100) (Some 40) None)
              "India" "E-Com" (sample_targets _ _ _)
              (no_settings_no_price_settings Sample.engine eq_refl))
    as (ub & ut & uw & Hr).
  assert (H1 : scenarios Sample.engine = default_scenarios)
    by (by apply scenarios_without_settings).
  assert (H2 : 0 < price_eff_index Sample.engine)
    by (rewrite price_eff_index_without_settings by done; lra).
  assert (H3 : 0 < price_elasticity Sample.engine)
    by (unfold price_elasticity; rewrite get_setting_absent by done; lra).
  destruct (scenario_units_ordered Sample.engine _ "India" "E-Com" _
              (sample_targets _ _ _) H1 (sample_common_units_positive _ _ _) H2 H3 Hr)
    as (w & b & t & H).
  eexists. exists w, b, t. by split.
Defined.

(** ** What a result depends on *)

Ltac in_reads :=
  unfold engine_reads; simpl; repeat (first [left; reflexivity | right]).

Section Agreement.

Variables self self' : CalculationEngine.
Variable sku : SkuRecord.
Variables market channel : string.

Hypothesis Hreads : reads_agree self self'.
Hypothesis Hmarket :
  market_view (markets self !! market) = market_view (markets self' !! market).
Hypothesis Hchannel :
  market_channels self !! (market +:+ "_" +:+ channel)
  = market_channels self' !! (market +:+ "_" +:+ channel).
Hypothesis Hcategory :
  market_categories self
    !! (market +:+ "_" +:+ channel +:+ "_" +:+ category_of sku)
  = market_categories self'
    !! (market +:+ "_" +:+ channel +:+ "_" +:+ category_of sku).

Ltac agree :=
  repeat match goal with
         | |- context [_get_setting self ?k ?d] => rewrite (Hreads k d) by in_reads
         end.

Lemma adj_list_price_view (e : CalculationEngine) :
  adj_list_price e sku market
  = base_list_price sku * price_multiplier (market_view (markets e !! market)).
Proof.
  unfold adj_list_price. destruct (markets e !! market); simpl; [done | lra].
Qed.

Lemma imported_cogs_view (e : CalculationEngine) :
  imported_cogs e sku market
  = base_landed_cost sku
    * (1 + import_freight_pct (market_view (markets e !! market)))
    * (1 + duties_taxes_pct (market_view (markets e !! market))).
Proof.
  unfold imported_cogs. destruct (markets e !! market); simpl; [done | lra].
Qed.

Lemma adj_list_price_agree :
  adj_list_price self sku market = adj_list_price self' sku market.
Proof. by rewrite !adj_list_price_view, Hmarket. Qed.

Lemma imported_cogs_agree :
  imported_cogs self sku market = imported_cogs self' sku market.
Proof. by rewrite !imported_cogs_view, Hmarket. Qed.

Lemma cts_pct_agree : cts_pct self market channel = cts_pct self' market channel.
Proof. unfold cts_pct. by rewrite Hchannel. Qed.

Lemma gm_per_unit_agree :
  gm_per_unit self sku market channel = gm_per_unit self' sku market channel.
Proof.
  unfold gm_per_unit.
  by rewrite adj_list_price_agree, imported_cogs_agree, cts_pct_agree.
Qed.

Lemma gm_pct_of_agree :
  gm_pct_of self sku market channel = gm_pct_of self' sku market channel.
Proof. unfold gm_pct_of. by rewrite adj_list_price_agree, gm_per_unit_agree. Qed.

Lemma score_b_agree : score_b self sku = score_b self' sku.
Proof. unfold score_b. by agree. Qed.

Lemma score_c_agree : score_c self sku = score_c self' sku.
Proof. unfold score_c. by agree. Qed.

Lemma score_d_agree : score_d self sku = score_d self' sku.
Proof. unfold score_d. by agree. Qed.

Lemma channel_weighted_agree :
  channel_weighted self sku market channel
  = channel_weighted self' sku market channel.
Proof. unfold channel_weighted, ch_weight. by rewrite score_b_agree, Hchannel. Qed.

Lemma get_override_agree (field_name : string) (dflt : R) :
  In (field_name, dflt) engine_reads →
  _get_override self market channel (category_of sku) field_name dflt
  = _get_override self' market channel (category_of sku) field_name dflt.
Proof.
  intros Hin. unfold _get_override, category_tier, channel_tier.
  by rewrite Hcategory, Hchannel, (Hreads _ _ Hin).
Qed.

Lemma common_units_mult_agree :
  common_units_mult self sku market channel
  = common_units_mult self' sku market channel.
Proof.
  unfold common_units_mult, base_units, score_multiplier, risk_factor_of,
    marketing_factor, adoption_factor, competitor_factor, lin_penalty,
    marketing_budget_multiplier, retail_adoption_fraction, target_comp_index.
  rewrite channel_weighted_agree, score_d_agree, Hchannel.
  rewrite !get_override_agree by in_reads. by agree.
Qed.

Lemma scenarios_agree : scenarios self = scenarios self'.
Proof. unfold scenarios. by agree. Qed.

Lemma price_effect_agree (s : scenario) : price_effect self s = price_effect self' s.
Proof. unfold price_effect, price_eff_index, price_elasticity. by agree. Qed.

Lemma scenario_units_agree (s : scenario) :
  scenario_units self sku market channel s
  = scenario_units self' sku market channel s.
Proof.
  unfold scenario_units. by rewrite price_effect_agree, common_units_mult_agree.
Qed.

Lemma recommendation_agree :
  recommendation self sku market channel = recommendation self' sku market channel.
Proof.
  unfold recommendation, is_gm_passed.
  rewrite gm_pct_of_agree, score_b_agree, score_d_agree. by agree.
Qed.

Lemma snapshot_agree (ub ut uw : pynum) :
  snapshot self sku market channel ub ut uw
  = snapshot self' sku market channel ub ut uw.
Proof.
  unfold snapshot, is_gm_passed, risk_factor_of.
  rewrite gm_per_unit_agree, gm_pct_of_agree, score_b_agree, score_c_agree,
    score_d_agree, channel_weighted_agree, adj_list_price_agree,
    recommendation_agree.
  by agree.
Qed.

Lemma calculate_full_agree :
  calculate_full self sku market channel = calculate_full self' sku market channel.
Proof.
  unfold calculate_full. rewrite scenarios_agree.
  rewrite !scenario_units_agree.
  destruct (scenario_units self' sku market channel (sc_base (scenarios self')))
    as [ub|]; [| done].
  destruct (scenario_units self' sku market channel (sc_best (scenarios self')))
    as [ut|]; [| done].
  destruct (scenario_units self' sku market channel (sc_worst (scenarios self')))
    as [uw|]; [| done].
  simpl. by rewrite snapshot_agree.
Qed.

End Agreement.

Lemma calculate_sku_agree (self self' : CalculationEngine) (sku : SkuRecord) :
  (∀ market channel, targets sku market channel →
     reads_agree self self'
     ∧ market_view (markets self !! market) = market_view (markets self' !! market)
     ∧ market_channels self !! (market +:+ "_" +:+ channel)
       = market_channels self' !! (market +:+ "_" +:+ channel)
     ∧ market_categories self
         !! (market +:+ "_" +:+ channel +:+ "_" +:+ category_of sku)
       = market_categories self'
         !! (market +:+ "_" +:+ channel +:+ "_" +:+ category_of sku)) →
  calculate_sku self sku = calculate_sku self' sku.
Proof.
  intros Hagree.
  destruct (Py.truthy_str (target_market sku)) eqn:Hm;
    [destruct (Py.truthy_str (primary_channel sku)) eqn:Hc |].
  - destruct (targets_truthy sku Hm Hc) as (market & channel & Ht).
    destruct (Hagree _ _ Ht) as (H1 & H2 & H3 & H4).
    rewrite !(guard_passes _ _ _ _ Ht). by apply calculate_full_agree.
  - rewrite !guard_stops by tauto. done.
  - rewrite !guard_stops by tauto. done.
Qed.

Lemma reads_agree_same_settings (self self' : CalculationEngine) :
  settings self = settings self' → reads_agree self self'.
Proof. intros He key dflt _. unfold _get_setting. by rewrite He. Qed.

(** X1.  The result for a SKU depends on the engine only through the
    global settings and the three entries under the SKU's own keys: two
    engines that agree on those give the same result, whatever else
    their market, channel and category maps hold. *)
Theorem result_depends_on_own_entries (self self' : CalculationEngine)
    (sku : SkuRecord) (market channel : string) :
  targets sku market channel →
  settings self = settings self' →
  markets self !! market = markets self' !! market →
  market_channels self !! (market +:+ "_" +:+ channel)
  = market_channels self' !! (market +:+ "_" +:+ channel) →
  market_categories self !! (market +:+ "_" +:+ channel +:+ "_" +:+ category_of sku)
  = market_categories self' !! (market +:+ "_" +:+ channel +:+ "_" +:+ category_of sku) →
  calculate_sku self sku = calculate_sku self' sku.
Proof.
  intros Ht Hs Hm Hc Hcat. apply calculate_sku_agree.
  intros market' channel' (Hm' & _ & Hc' & _).
  destruct Ht as (Hm0 & _ & Hc0 & _).
  rewrite Hm0 in Hm'. rewrite Hc0 in Hc'. injection Hm' as <-. injection Hc' as <-.
  repeat split; [by apply reads_agree_same_settings | by rewrite Hm | done | done].
Qed.

Lemma result_depends_on_own_entries_witness :
  calculate_sku Sample.engine
    (Sample.sku (Some "India") (Some "E-Com") (Some 100) (Some 40) None)
  = calculate_sku
      (with_channels
         (with_markets Sample.engine
            (<["UAE" := default_market_config]> (markets Sample.engine)))
         (<["UAE_MT" := default_channel_config]> (market_channels Sample.engine)))
      (Sample.sku (Some "India") (Some "E-Com") (Some 100) (Some 40) None).
Proof.
  apply (result_depends_on_own_entries _ _ _ "India" "E-Com").
  - apply sample_targets.
  - reflexivity.
  - reflexivity.
  - reflexivity.
  - reflexivity.
Defined.

(** X2.  A market row that holds the column defaults (freight 0,
    duties 0, price multiplier 1) is the same to the engine as no row:
    adding one for a market that has none changes the result of no
    SKU. *)
Theorem default_market_row_is_neutral (self : CalculationEngine)
    (sku : SkuRecord) (m : string) :
  markets self !! m = None →
  calculate_sku
    (with_markets self (<[m := default_market_config]> (markets self))) sku
  = calculate_sku self sku.
Proof.
  intros Hnone. apply calculate_sku_agree. intros market channel _.
  split; [by apply reads_agree_same_settings |]. split; [| done]. simpl.
  destruct (decide (m = market)) as [<- | Hne].
  - by rewrite lookup_insert_eq, Hnone.
  - by rewrite lookup_insert_ne.
Qed.

Lemma default_market_row_is_neutral_witness :
  let sku := Sample.sku (Some "Nepal") (Some "E-Com") (Some 100) (Some 40) None in
  calculate_sku
    (with_markets Sample.engine
       (<["Nepal" := default_market_config]> (markets Sample.engine))) sku
  = calculate_sku Sample.engine sku
  ∧ ∃ cache, calculate_sku Sample.engine sku = Ok cache.
Proof.
  intros sku. split.
  - apply default_market_row_is_neutral. reflexivity.
  - destruct (returns_without_price_settings Sample.engine sku "Nepal" "E-Com")
      as (ub & ut & uw & Hr); [by repeat split | | by eexists].
    by apply no_settings_no_price_settings.
Defined.

(** ** The tables and the dictionaries built from them *)

Section DictOf.

Context {A V : Type}.
Variable key : A → string.
Variable value : A → V.
Implicit Types (rows : list A) (k : string).

Lemma dict_of_snoc rows r :
  Store.dict_of key value (rows ++ [r])
  = <[key r := value r]> (Store.dict_of key value rows).
Proof. unfold Store.dict_of. by rewrite foldl_snoc. Qed.

Lemma dict_of_lookup_None rows k :
  Store.dict_of key value rows !! k = None ↔ k ∉ key <$> rows.
Proof.
  induction rows as [|r rows IH] using rev_ind.
  - split; [intros _; apply not_elem_of_nil | done].
  - rewrite dict_of_snoc, fmap_app, lookup_insert_None, IH.
    rewrite not_elem_of_app. simpl. rewrite list_elem_of_singleton.
    split; [intros [? ?]; split; [done | congruence] | intros [? ?]; split; [congruence | done]].
Qed.

Lemma dict_of_app_fresh rows added k :
  k ∉ key <$> added →
  Store.dict_of key value (rows ++ added) !! k = Store.dict_of key value rows !! k.
Proof.
  induction added as [|r added IH] using rev_ind; intros Hk.
  - by rewrite app_nil_r.
  - rewrite fmap_app, not_elem_of_app in Hk. destruct Hk as [Hk Hr].
    rewrite app_assoc, dict_of_snoc, lookup_insert_ne; [by apply IH |].
    simpl in Hr. rewrite list_elem_of_singleton in Hr. done.
Qed.

(** X3.  The dictionary a table is turned into answers a key with the
    last row that has this key: a later row hides every earlier row
    under the same key, and a key no row has is absent. *)
Theorem dict_of_last_row_wins rows k :
  (∀ before r after,
     rows = before ++ r :: after → key r = k → k ∉ key <$> after →
     Store.dict_of key value rows !! k = Some (value r))
  ∧ (k ∉ key <$> rows → Store.dict_of key value rows !! k = None).
Proof.
  split; [| by apply dict_of_lookup_None].
  intros before r after -> Hr Hafter.
  change (before ++ r :: after) with (before ++ [r] ++ after).
  rewrite app_assoc, dict_of_app_fresh by done.
  by rewrite dict_of_snoc, Hr, lookup_insert_eq.
Qed.

End DictOf.

(** ** Seeding the default configuration *)

Section AddIfMissing.

Context {Row Item K : Type} `{EqDecision K}.
Variable row_pk : Row → K.
Variable item_pk : Item → K.
Variable make : Item → Row.
Hypothesis make_pk : ∀ i, row_pk (make i) = item_pk i.

Local Abbreviation add_if_missing := (add_if_missing row_pk item_pk make).

Lemma add_all_extends (l : list Item) (rows : list Row) :
  ∃ added,
    foldl add_if_missing rows l = rows ++ added
    ∧ Forall (λ r, ∃ i, i ∈ l ∧ r = make i ∧ item_pk i ∉ row_pk <$> rows) added.
Proof.
  revert rows. induction l as [|i l IH]; intros rows; simpl.
  - exists []. by rewrite app_nil_r.
  - unfold add_if_missing at 2. case_bool_decide as Hin.
    + destruct (IH rows) as (added & -> & Hall). exists added. split; [done |].
      eapply Forall_impl; [exact Hall |]. intros r (j & ? & ? & ?).
      exists j. by rewrite elem_of_cons; auto.
    + destruct (IH (rows ++ [make i])) as (added & -> & Hall).
      exists (make i :: added). split; [by rewrite <- app_assoc |].
      constructor.
      * exists i. split; [by left | done].
      * eapply Forall_impl; [exact Hall |]. intros r (j & ? & ? & Hj).
        exists j. rewrite fmap_app, not_elem_of_app in Hj.
        split; [by right | tauto].
Qed.

Lemma add_all_covers (l : list Item) (rows : list Row) (i : Item) :
  i ∈ l → item_pk i ∈ row_pk <$> foldl add_if_missing rows l.
Proof.
  revert rows. induction l as [|j l IH]; intros rows; [by intros ?%elem_of_nil |].
  intros [-> | Hin]%elem_of_cons; simpl; [| by apply IH].
  destruct (add_all_extends l (add_if_missing rows j)) as (added & -> & _).
  rewrite fmap_app, elem_of_app. left.
  unfold add_if_missing. case_bool_decide; [done |].
  rewrite fmap_app, elem_of_app. right. simpl. rewrite make_pk. by left.
Qed.

Lemma add_all_present (l : list Item) (rows : list Row) :
  (∀ i, i ∈ l → item_pk i ∈ row_pk <$> rows) → foldl add_if_missing rows l = rows.
Proof.
  induction l as [|j l IH]; intros Hall; simpl; [done |].
  unfold add_if_missing at 2. rewrite bool_decide_eq_true_2.
  - apply IH. intros i Hi. apply Hall. by right.
  - apply Hall. by left.
Qed.

Lemma add_all_idempotent (l : list Item) (rows : list Row) :
  foldl add_if_missing (foldl add_if_missing rows l) l = foldl add_if_missing rows l.
Proof. apply add_all_present. intros i Hi. by apply add_all_covers. Qed.

Lemma add_all_NoDup (l : list Item) (rows : list Row) :
  NoDup (row_pk <$> rows) → NoDup (row_pk <$> foldl add_if_missing rows l).
Proof.
  revert rows. induction l as [|i l IH]; intros rows Hnd; simpl; [done |].
  apply IH. unfold add_if_missing. case_bool_decide as Hin; [done |].
  rewrite fmap_app. apply NoDup_app. split; [done |]. split.
  - intros k Hk [->|[]%elem_of_nil]%elem_of_cons. by rewrite make_pk in Hk.
  - simpl. apply NoDup_singleton.
Qed.

End AddIfMissing.

Lemma dict_of_lookup_Some_elem {A V : Type} (key : A → string) (value : A → V)
    (rows : list A) (k : string) (v : V) :
  Store.dict_of key value rows !! k = Some v →
  ∃ r, r ∈ rows ∧ key r = k ∧ value r = v.
Proof.
  induction rows as [|r rows IH] using rev_ind.
  - unfold Store.dict_of. simpl. by rewrite lookup_empty.
  - rewrite dict_of_snoc. destruct (decide (key r = k)) as [<- | Hne].
    + rewrite lookup_insert_eq. intros [= <-]. exists r.
      rewrite elem_of_app, list_elem_of_singleton. auto.
    + rewrite lookup_insert_ne by done. intros (r' & ? & ? & ?)%IH.
      exists r'. rewrite elem_of_app. auto.
Qed.

(** A table keyed by its primary key, after the loop. *)
Section SeededLookup.

Context {Row Item V : Type}.
Variable row_pk : Row → string.
Variable item_pk : Item → string.
Variable make : Item → Row.
Variable value : Row → V.
Hypothesis make_pk : ∀ i, row_pk (make i) = item_pk i.

Lemma seeded_lookup_kept (l : list Item) (rows : list Row) (k : string) (v : V) :
  Store.dict_of row_pk value rows !! k = Some v →
  Store.dict_of row_pk value (foldl (add_if_missing row_pk item_pk make) rows l) !! k
  = Some v.
Proof.
  intros Hk.
  destruct (add_all_extends row_pk item_pk make l rows) as (added & -> & Hall).
  rewrite dict_of_app_fresh; [done |].
  intros (r & -> & Hr)%list_elem_of_fmap.
  rewrite Forall_forall in Hall. destruct (Hall r Hr) as (i & _ & -> & Hfresh).
  rewrite make_pk in Hk.
  apply (dict_of_lookup_None row_pk value) in Hfresh. congruence.
Qed.

Lemma seeded_lookup_new (l : list Item) (rows : list Row) (k : string) (v : V) :
  Store.dict_of row_pk value rows !! k = None →
  Store.dict_of row_pk value (foldl (add_if_missing row_pk item_pk make) rows l) !! k
  = Some v →
  ∃ i, i ∈ l ∧ item_pk i = k ∧ value (make i) = v.
Proof.
  intros Hnone Hsome.
  destruct (add_all_extends row_pk item_pk make l rows) as (added & Heq & Hall).
  rewrite Heq in Hsome.
  apply dict_of_lookup_Some_elem in Hsome as (r & Hr & Hkey & Hval).
  apply elem_of_app in Hr as [Hr | Hr].
  - apply dict_of_lookup_None in Hnone. destruct Hnone.
    apply list_elem_of_fmap. by exists r.
  - rewrite Forall_forall in Hall. destruct (Hall r Hr) as (i & Hi & -> & _).
    exists i. by rewrite <- make_pk.
Qed.

End SeededLookup.

Lemma seed_setting_shape :
  ExcelParser.seed_setting
  = add_if_missing Store.setting_key fst
      (λ kv, {| Store.setting_key := kv.1; Store.setting_value := kv.2 |}).
Proof. reflexivity. Qed.

Lemma seed_market_shape :
  ExcelParser.seed_market
  = add_if_missing Store.market_name (λ m, m)
      (λ m, {| Store.market_name := m; Store.market_config := default_market_config |}).
Proof. reflexivity. Qed.

Lemma seed_channel_shape :
  ExcelParser.seed_channel
  = add_if_missing channel_pk (λ mc, (mc.1, ExcelParser.c_name mc.2))
      (λ mc, {| Store.channel_market_id := mc.1;
                Store.channel_name := ExcelParser.c_name mc.2;
                Store.channel_config := ExcelParser.seeded_channel_config mc.2 |}).
Proof. reflexivity. Qed.

(** X4.  Seeding twice is seeding once: a second run of
    [_seed_default_configs] finds every default row in place and adds
    nothing. *)
Theorem seed_default_configs_idempotent (db : ExcelParser.database) :
  ExcelParser._seed_default_configs (ExcelParser._seed_default_configs db)
  = ExcelParser._seed_default_configs db.
Proof.
  unfold ExcelParser._seed_default_configs.
  cbn [ExcelParser.db_settings ExcelParser.db_markets ExcelParser.db_channels].
  rewrite seed_setting_shape, seed_market_shape, seed_channel_shape.
  f_equal; by apply add_all_idempotent.
Qed.

(** X5.  Seeding only adds rows: each table keeps its rows, in order,
    in front of the added ones; it ends with a row for every default
    setting, market and market-channel pair; and a table whose primary
    keys were distinct keeps them distinct. *)
Theorem seed_default_configs_extends (db : ExcelParser.database) :
  let seeded := ExcelParser._seed_default_configs db in
  (∃ added, ExcelParser.db_settings seeded = ExcelParser.db_settings db ++ added)
  ∧ (∃ added, ExcelParser.db_markets seeded = ExcelParser.db_markets db ++ added)
  ∧ (∃ added, ExcelParser.db_channels seeded = ExcelParser.db_channels db ++ added)
  ∧ (∀ kv, kv ∈ ExcelParser.default_settings →
       ExcelParser.has_setting (ExcelParser.db_settings seeded) kv.1 = true)
  ∧ (∀ m, m ∈ ExcelParser.seed_markets →
       ExcelParser.has_market (ExcelParser.db_markets seeded) m = true)
  ∧ (∀ mc, mc ∈ seed_grid →
       ExcelParser.has_channel (ExcelParser.db_channels seeded)
         mc.1 (ExcelParser.c_name mc.2) = true)
  ∧ (NoDup (Store.setting_key <$> ExcelParser.db_settings db) →
     NoDup (Store.setting_key <$> ExcelParser.db_settings seeded))
  ∧ (NoDup (Store.market_name <$> ExcelParser.db_markets db) →
     NoDup (Store.market_name <$> ExcelParser.db_markets seeded))
  ∧ (NoDup (channel_pk <$> ExcelParser.db_channels db) →
     NoDup (channel_pk <$> ExcelParser.db_channels seeded)).
Proof.
  unfold ExcelParser._seed_default_configs.
  cbn [ExcelParser.db_settings ExcelParser.db_markets ExcelParser.db_channels].
  rewrite seed_setting_shape, seed_market_shape, seed_channel_shape.
  split; [| split; [| split]].
  - destruct (add_all_extends Store.setting_key fst
                (λ kv, {| Store.setting_key := kv.1; Store.setting_value := kv.2 |})
                ExcelParser.default_settings
                (ExcelParser.db_settings db)) as (added & -> & _). eauto.
  - destruct (add_all_extends Store.market_name (λ m, m)
                (λ m, {| Store.market_name := m;
                         Store.market_config := default_market_config |})
                ExcelParser.seed_markets
                (ExcelParser.db_markets db)) as (added & -> & _). eauto.
  - destruct (add_all_extends channel_pk (λ mc, (mc.1, ExcelParser.c_name mc.2))
                (λ mc, {| Store.channel_market_id := mc.1;
                          Store.channel_name := ExcelParser.c_name mc.2;
                          Store.channel_config :=
                            ExcelParser.seeded_channel_config mc.2 |})
                seed_grid
                (ExcelParser.db_channels db)) as (added & Heq & _).
    unfold seed_grid in Heq. eauto.
  - split; [| split; [| split; [| split; [| split]]]].
    + intros kv Hkv. unfold ExcelParser.has_setting. apply bool_decide_eq_true_2.
      by apply (add_all_covers Store.setting_key fst
                  (λ kv, {| Store.setting_key := kv.1; Store.setting_value := kv.2 |})
                  (λ _, eq_refl)).
    + intros m Hm. unfold ExcelParser.has_market. apply bool_decide_eq_true_2.
      by apply (add_all_covers Store.market_name (λ m, m)
                  (λ m, {| Store.market_name := m;
                           Store.market_config := default_market_config |})
                  (λ _, eq_refl)).
    + intros mc Hmc. unfold ExcelParser.has_channel. apply bool_decide_eq_true_2.
      by apply (add_all_covers channel_pk (λ mc, (mc.1, ExcelParser.c_name mc.2))
                  (λ mc, {| Store.channel_market_id := mc.1;
                            Store.channel_name := ExcelParser.c_name mc.2;
                            Store.channel_config :=
                              ExcelParser.seeded_channel_config mc.2 |})
                  (λ _, eq_refl)).
    + by apply add_all_NoDup.
    + by apply add_all_NoDup.
    + by apply add_all_NoDup.
Qed.

(** Every setting the seeding writes and the engine reads is written
    with the value the engine falls back on. *)
Lemma defaults_match_engine (k : string) (d v : R) :
  In (k, d) engine_reads → (k, v) ∈ ExcelParser.default_settings → v = d.
Proof.
  intros Hin Hel. apply list_elem_of_In in Hel.
  unfold ExcelParser.default_settings in Hel. simpl in Hel.
  unfold engine_reads in Hin. simpl in Hin.
  repeat (destruct Hin as [Hin | Hin];
          [injection Hin as <- <-;
           repeat (destruct Hel as [Hel | Hel];
                   [first [discriminate Hel | by injection Hel as ->] |]);
           by destruct Hel |]).
  by destruct Hin.
Qed.

Lemma seed_grid_keys (r : Store.channel_row) (mc : string * ExcelParser.channel_seed) :
  r = {| Store.channel_market_id := mc.1;
         Store.channel_name := ExcelParser.c_name mc.2;
         Store.channel_config := ExcelParser.seeded_channel_config mc.2 |} →
  Store.channel_key r = seed_key mc.
Proof. by intros ->. Qed.

(** X6.  Seeding the defaults into any database leaves the result of a
    SKU as it was, provided no channel row is added under the SKU's
    market-channel key: the seeded settings carry the values the engine
    falls back on anyway, and a seeded market row is a pass-through. *)
Theorem seeding_keeps_results (db : ExcelParser.database)
    (category_res : list Store.category_row) (sku : SkuRecord)
    (market channel : string) :
  targets sku market channel →
  (∀ mc, mc ∈ seed_grid → seed_key mc = market +:+ "_" +:+ channel →
     ExcelParser.has_channel (ExcelParser.db_channels db)
       mc.1 (ExcelParser.c_name mc.2) = true) →
  let seeded := ExcelParser._seed_default_configs db in
  calculate_sku
    (Recalculator.build_calc_engine (ExcelParser.db_settings seeded)
       (ExcelParser.db_markets seeded) (ExcelParser.db_channels seeded)
       category_res) sku
  = calculate_sku
      (Recalculator.build_calc_engine (ExcelParser.db_settings db)
         (ExcelParser.db_markets db) (ExcelParser.db_channels db)
         category_res) sku.
Proof.
  intros Ht Hgrid seeded. apply calculate_sku_agree.
  intros market' channel' (Hm' & _ & Hc' & _).
  destruct Ht as (Hm0 & _ & Hc0 & _).
  rewrite Hm0 in Hm'. rewrite Hc0 in Hc'. injection Hm' as <-. injection Hc' as <-.
  unfold seeded, ExcelParser._seed_default_configs, Recalculator.build_calc_engine.
  cbn [ExcelParser.db_settings ExcelParser.db_markets ExcelParser.db_channels
       settings markets market_channels market_categories].
  rewrite seed_setting_shape, seed_market_shape, seed_channel_shape.
  split; [| split; [| split; [| done]]].
  - intros k d Hin. unfold _get_setting.
    cbn [settings].
    destruct (Store.dict_of Store.setting_key Store.setting_value
                (ExcelParser.db_settings db) !! k) as [v|] eqn:Hold.
    + by erewrite seeded_lookup_kept.
    + destruct (Store.dict_of _ _ (foldl _ _ _) !! k) as [v|] eqn:Hnew; [| done].
      apply seeded_lookup_new in Hnew as ([k' v'] & Hi & Hk & Hv); [| done | done].
      simpl in Hk, Hv. subst. simpl. by eapply defaults_match_engine.
  - destruct (Store.dict_of Store.market_name Store.market_config
                (ExcelParser.db_markets db) !! market) as [v|] eqn:Hold.
    + by erewrite seeded_lookup_kept.
    + destruct (Store.dict_of _ _ (foldl _ _ _) !! market) as [v|] eqn:Hnew; [| done].
      apply seeded_lookup_new in Hnew as (m & _ & _ & Hv); [| done | done].
      by subst.
  - destruct (add_all_extends channel_pk (λ mc, (mc.1, ExcelParser.c_name mc.2))
                (λ mc, {| Store.channel_market_id := mc.1;
                          Store.channel_name := ExcelParser.c_name mc.2;
                          Store.channel_config :=
                            ExcelParser.seeded_channel_config mc.2 |})
                seed_grid (ExcelParser.db_channels db)) as (added & Heq & Hall).
    unfold seed_grid in Heq. rewrite Heq. apply dict_of_app_fresh.
    intros (r & Hkey & Hr)%list_elem_of_fmap.
    rewrite Forall_forall in Hall. destruct (Hall r Hr) as (mc & Hmc & Hrow & Hfresh).
    apply Hfresh. rewrite (seed_grid_keys r mc Hrow) in Hkey. symmetry in Hkey.
    specialize (Hgrid mc Hmc Hkey). unfold ExcelParser.has_channel in Hgrid.
    by apply bool_decide_eq_true_1 in Hgrid.
Qed.

Lemma seeding_keeps_results_witness :
  let db := {| ExcelParser.db_settings := []; ExcelParser.db_markets := [];
               ExcelParser.db_channels := [] |} in
  let sku := Sample.sku (Some "Kenya") (Some "E-Com") (Some 100) (Some 40) None in
  let seeded := ExcelParser._seed_default_configs db in
  calculate_sku
    (Recalculator.build_calc_engine (ExcelParser.db_settings seeded)
       (ExcelParser.db_markets seeded) (ExcelParser.db_channels seeded) []) sku
  = calculate_sku (Recalculator.build_calc_engine [] [] [] []) sku.
Proof.
  intros db sku seeded.
  apply (seeding_keeps_results db [] sku "Kenya" "E-Com").
  - by repeat split.
  - intros mc Hmc Hkey. exfalso. unfold seed_grid in Hmc. simpl in Hmc.
    repeat (apply elem_of_cons in Hmc as [-> | Hmc]; [discriminate Hkey |]).
    by apply elem_of_nil in Hmc.
Defined.

(** ** The recommendation, gate by gate *)

(** X7.  The recommendation is one of the three states; the SKU is
    selected for wave 1 exactly when the state is Launch Now; and the
    state is Launch Now exactly when neither risk flag is true, neither
    the regulatory nor the supply gate is explicitly false, the margin
    reaches the floor, the fit score reaches the minimum and the risk
    score stays within the maximum. *)
Theorem launch_now_iff_all_gates (self : CalculationEngine) (sku : SkuRecord)
    (market channel : string) :
  let r := recommendation self sku market channel in
  (r.1 = "Do Not Launch" ∨ r.1 = "Launch Now" ∨ r.1 = "Phase Later")
  ∧ (r.2 = true ↔ r.1 = "Launch Now")
  ∧ (r.1 = "Launch Now" ↔
       ip_risk_high sku ≠ Some true
       ∧ regulatory_prohibition sku ≠ Some true
       ∧ regulatory_eligible sku ≠ Some false
       ∧ supply_ready sku ≠ Some false
       ∧ _get_setting self "gm_floor_pct" 0.35 <= gm_pct_of self sku market channel
       ∧ _get_setting self "launch_now_min_score" 4 <= score_b self sku
       ∧ score_d self sku <= _get_setting self "launch_now_max_risk" 2.5).
Proof.
  unfold recommendation, is_regulatory_passed, is_supply_passed, is_gm_passed.
  destruct (ip_risk_high sku) as [[|]|], (regulatory_prohibition sku) as [[|]|],
    (regulatory_eligible sku) as [[|]|], (supply_ready sku) as [[|]|]; simpl;
    repeat case_bool_decide; simpl;
    (split; [tauto | split; [split; [done | done] |]]);
    (split; [first [done | by repeat split] | intros (? & ? & ? & ? & ? & ? & ?); done]).
Qed.

(** X8.  A SKU without a list price, or with a list price of 0, fails
    the margin gate whenever the margin floor is positive, as it is by
    default: its margin percentage is 0, and no snapshot returned for it
    is Launch Now or selected for wave 1. *)
Theorem no_price_never_launches (self : CalculationEngine) (sku : SkuRecord)
    (market channel : string) (cache : SkuCalculationCache) :
  targets sku market channel →
  local_list_price sku = None ∨ local_list_price sku = Some 0 →
  0 < _get_setting self "gm_floor_pct" 0.35 →
  calculate_sku self sku = Ok cache →
  gm_pct cache = Some 0
  ∧ pass_gm_floor cache = Some false
  ∧ final_recommendation cache ≠ Some "Launch Now"
  ∧ select_for_wave_1 cache = Some false.
Proof.
  intros Ht Hprice Hfloor.
  assert (Hadj : adj_list_price self sku market = 0).
  { rewrite adj_list_price_formula. destruct Hprice as [-> | ->]; simpl; lra. }
  assert (Hpct : gm_pct_of self sku market channel = 0).
  { unfold gm_pct_of. rewrite decide_False; [done | lra]. }
  assert (Hgate : is_gm_passed self sku market channel = false).
  { unfold is_gm_passed. rewrite Hpct. apply bool_decide_eq_false_2. lra. }
  assert (Hrec : recommendation self sku market channel = ("Do Not Launch", false)
                 ∨ recommendation self sku market channel = ("Phase Later", false)).
  { unfold recommendation. rewrite Hgate, andb_false_r. simpl.
    destruct (_ || _); auto. }
  intros (ub & ut & uw & _ & _ & _ & ->)%(returned_snapshot self _ _ _ _ Ht).
  simpl. rewrite Hpct, Hgate.
  destruct Hrec as [-> | ->]; by repeat split.
Qed.

Lemma no_price_never_launches_witness :
  let sku := Sample.sku (Some "India") (Some "E-Com") None (Some 40) None in
  ∃ cache,
    calculate_sku Sample.engine sku = Ok cache
    ∧ gm_pct cache = Some 0
    ∧ pass_gm_floor cache = Some false
    ∧ final_recommendation cache ≠ Some "Launch Now"
    ∧ select_for_wave_1 cache = Some false.
Proof.
  intros sku.
  destruct (returns_without_price_settings Sample.engine sku "India" "E-Com"
              (sample_targets _ _ _) (no_settings_no_price_settings Sample.engine eq_refl))
    as (ub & ut & uw & Hr).
  eexists. split; [exact Hr |].
  apply (no_price_never_launches Sample.engine sku "India" "E-Com").
  - apply sample_targets.
  - by left.
  - rewrite get_setting_absent by done. lra.
  - exact Hr.
Defined.

(** ** The demand factors *)

(** X9.  Whatever the configuration: the marketing factor lies in
    [0.85, 1.15], the score multiplier and the competitor factor are at
    least 0.6, the competitor factor takes off at most the penalty cap,
    the risk factor is at least the risk floor; and with a cap and a
    penalty that are not negative the competitor factor is at most 1. *)
Theorem demand_factors_clamped (self : CalculationEngine) (sku : SkuRecord)
    (market channel : string) :
  0.85 <= marketing_factor self sku market channel
  ∧ marketing_factor self sku market channel <= 1.15
  ∧ 0.6 <= score_multiplier self sku market channel
  ∧ 0.6 <= competitor_factor self sku market channel
  ∧ 1 - _get_setting self "risk_penalty_cap" 0.4
    <= competitor_factor self sku market channel
  ∧ _get_setting self "global_risk_floor" 0.6 <= risk_factor_of self sku
  ∧ (0 <= _get_setting self "risk_penalty_cap" 0.4 →
     0 <= lin_penalty self sku market channel →
     competitor_factor self sku market channel <= 1).
Proof.
  split; [apply marketing_factor_lower |].
  split.
  { unfold marketing_factor. apply Rmax_lub; [lra | apply Rmin_l]. }
  split; [apply score_multiplier_lower |].
  split; [apply competitor_factor_lower |].
  split.
  { unfold competitor_factor.
    pose proof (Rmin_l (_get_setting self "risk_penalty_cap" 0.4)
                  (lin_penalty self sku market channel)).
    eapply Rle_trans; [| apply Rmax_l]. lra. }
  split; [apply risk_factor_lower |].
  intros Hcap Hpen. unfold competitor_factor. apply Rmax_lub; [| lra].
  pose proof (Rmin_glb _ _ _ Hcap Hpen). lra.
Qed.

(** ** Volumes and rollups *)

(** X11.  A SKU whose market-channel pair has no channel row has no
    base volume: its common unit multiplier is 0, so in every snapshot
    returned for it each float among the adjusted units, the monthly
    revenue and the gross-margin dollars is 0. *)
Theorem unconfigured_channel_sells_nothing (self : CalculationEngine)
    (sku : SkuRecord) (market channel : string) :
  targets sku market channel →
  market_channels self !! (market +:+ "_" +:+ channel) = None →
  common_units_mult self sku market channel = 0
  ∧ (∀ cache, calculate_sku self sku = Ok cache →
       Forall (λ field, ∃ v, field = Some v ∧ ∀ x, v = PyFloat x → x = 0)
         [ adj_units_base cache; adj_units_best cache; adj_units_worst cache;
           monthly_revenue cache; monthly_gm_dollar cache; monthly_gm_base cache;
           monthly_gm_best cache; monthly_gm_worst cache ]).
Proof.
  intros Ht Hnone.
  assert (Hcommon : common_units_mult self sku market channel = 0).
  { unfold common_units_mult, base_units. rewrite Hnone. lra. }
  assert (Hunits : ∀ s u x,
            scenario_units self sku market channel s = Ok u → u = PyFloat x → x = 0).
  { intros s u x. unfold scenario_units. intros (e & _ & [= <-])%bind_Ok_inv.
    rewrite Hcommon. destruct e; simpl; [| done]. intros [= <-]. lra. }
  split; [done |].
  intros cache (ub & ut & uw & Hb & Hbest & Hw & ->)%(returned_snapshot self _ _ _ _ Ht).
  simpl.
  assert (Hscaled : ∀ s u k x,
            scenario_units self sku market channel s = Ok u →
            pn_map (λ v, v * k) u = PyFloat x → x = 0).
  { intros s u k x Hs. destruct u as [y|]; simpl; [| done].
    intros [= <-]. rewrite (Hunits s _ y Hs eq_refl). lra. }
  repeat (apply Forall_cons; split; [eexists; split; [done |]; eauto |]).
  by apply Forall_nil.
Qed.

Lemma unconfigured_channel_sells_nothing_witness :
  let sku := Sample.sku (Some "India") (Some "E-Com") (Some 100) (Some 40) None in
  common_units_mult bare_engine sku "India" "E-Com" = 0
  ∧ ∃ cache, calculate_sku bare_engine sku = Ok cache
             ∧ adj_units_base cache = Some (PyFloat 0).
Proof.
  intros sku.
  destruct (unconfigured_channel_sells_nothing bare_engine sku "India" "E-Com")
    as [Hc Hall]; [apply sample_targets | reflexivity |].
  split; [exact Hc |].
  destruct (returns_without_price_settings bare_engine sku "India" "E-Com"
              (sample_targets _ _ _) (no_settings_no_price_settings bare_engine eq_refl))
    as (ub & ut & uw & Hr).
  eexists. split; [exact Hr |].
  specialize (Hall _ Hr). apply Forall_cons in Hall as [(v & Hv & Hz) _].
  simpl in Hv. injection Hv as <-. simpl. by rewrite (Hz ub eq_refl).
Defined.

(** X13.  Under the default scenario table, with a positive common
    unit multiplier, price-effective index and elasticity, the
    gross-margin dollars of the three scenarios in a returned snapshot
    follow the sign of the margin per unit: worst <= base <= best when
    the margin per unit is not negative, and best <= base <= worst when
    it is not positive. *)
Theorem gm_dollars_follow_margin_sign (self : CalculationEngine) (sku : SkuRecord)
    (market channel : string) (cache : SkuCalculationCache) :
  targets sku market channel →
  scenarios self = default_scenarios →
  0 < common_units_mult self sku market channel →
  0 < price_eff_index self →
  0 < price_elasticity self →
  calculate_sku self sku = Ok cache →
  ∃ worst base best,
    monthly_gm_worst cache = Some (PyFloat worst)
    ∧ monthly_gm_base cache = Some (PyFloat base)
    ∧ monthly_gm_best cache = Some (PyFloat best)
    ∧ (0 <= gm_per_unit self sku market channel → worst <= base ∧ base <= best)
    ∧ (gm_per_unit self sku market channel <= 0 → best <= base ∧ base <= worst).
Proof.
  intros Ht Hs HC Hp He Hr.
  destruct (default_scenarios_units self sku market channel cache Ht Hs HC Hp He Hr)
    as (w & b & t & -> & Hwb & Hbt).
  do 3 eexists. simpl. do 3 (split; [done |]).
  split; intros Hgm; split; nra.
Qed.

Lemma gm_dollars_follow_margin_sign_witness :
  let sku := Sample.sku (Some "India") (Some "E-Com") (Some 100) (Some 40) None in
  ∃ cache worst base best,
    calculate_sku Sample.engine sku = Ok cache
    ∧ monthly_gm_worst cache = Some (PyFloat worst)
    ∧ monthly_gm_base cache = Some (PyFloat base)
    ∧ monthly_gm_best cache = Some (PyFloat best)
    ∧ (0 <= gm_per_unit Sample.engine sku "India" "E-Com" →
       worst <= base ∧ base <= best)
    ∧ (gm_per_unit Sample.engine sku "India" "E-Com" <= 0 →
       best <= base ∧ base <= worst).
Proof.
  intros sku.
  destruct (returns_without_price_settings Sample.engine sku "India" "E-Com"
              (sample_targets _ _ _) (no_settings_no_price_settings Sample.engine eq_refl))
    as (ub & ut & uw & Hr).
  assert (H1 : scenarios Sample.engine = default_scenarios)
    by (by apply scenarios_without_settings).
  assert (H2 : 0 < price_eff_index Sample.engine)
    by (rewrite price_eff_index_without_settings by done; lra).
  assert (H3 : 0 < price_elasticity Sample.engine)
    by (unfold price_elasticity; rewrite get_setting_absent by done; lra).
  destruct (gm_dollars_follow_margin_sign Sample.engine sku "India" "E-Com" _
              (sample_targets _ _ _) H1 (sample_common_units_positive _ _ _) H2 H3 Hr)
    as (w & b & t & H).
  eexists. exists w, b, t. by split.
Defined.

(** ** Composite keys *)

Lemma append_assoc (a b c : string) : (a +:+ b) +:+ c = a +:+ b +:+ c.
Proof.
  induction a as [|x a IH]; [done |].
  change (String x ((a +:+ b) +:+ c) = String x (a +:+ b +:+ c)). by rewrite IH.
Qed.

(** X14.  The keys of the channel and category maps are built by
    joining names with an underscore, so an underscore in a name moves
    freely across the join: the market [m_x] with the channel [c] reads
    the same channel row and the same category override as the market
    [m] with the channel [x_c]. *)
Theorem underscore_shifts_between_names (self : CalculationEngine)
    (m x c category field_name : string) (dflt : R) :
  _get_override self (m +:+ "_" +:+ x) c category field_name dflt
  = _get_override self m (x +:+ "_" +:+ c) category field_name dflt
  ∧ cts_pct self (m +:+ "_" +:+ x) c = cts_pct self m (x +:+ "_" +:+ c)
  ∧ base_units self (m +:+ "_" +:+ x) c = base_units self m (x +:+ "_" +:+ c)
  ∧ ch_weight self (m +:+ "_" +:+ x) c = ch_weight self m (x +:+ "_" +:+ c).
Proof.
  assert (Hchan : (m +:+ "_" +:+ x) +:+ "_" +:+ c = m +:+ "_" +:+ (x +:+ "_" +:+ c)).
  { rewrite append_assoc. f_equal. }
  assert (Hcat : (m +:+ "_" +:+ x) +:+ "_" +:+ c +:+ "_" +:+ category
                 = m +:+ "_" +:+ (x +:+ "_" +:+ c) +:+ "_" +:+ category).
  { rewrite !append_assoc. do 2 f_equal. }
  unfold _get_override, category_tier, channel_tier, cts_pct, base_units, ch_weight.
  by rewrite Hchan, Hcat.
Qed.

Lemma append_cons (x : Ascii.ascii) (a b : string) :
  String x a +:+ b = String x (a +:+ b).
Proof. reflexivity. Qed.

Lemma append_empty (b : string) : "" +:+ b = b.
Proof. reflexivity. Qed.

Lemma join_inj (m1 c1 m2 c2 : string) :
  has_underscore m1 = false → has_underscore m2 = false →
  m1 +:+ "_" +:+ c1 = m2 +:+ "_" +:+ c2 → m1 = m2 ∧ c1 = c2.
Proof.
  revert m2. induction m1 as [|x m1 IH]; intros [|y m2] H1 H2 Heq;
    rewrite ?append_cons, ?append_empty in Heq.
  - by injection Heq as ->.
  - injection Heq as <- _. by simpl in H2.
  - injection Heq as -> _. by simpl in H1.
  - injection Heq as -> Heq. simpl in H1, H2.
    apply orb_false_elim in H1 as [_ H1]. apply orb_false_elim in H2 as [_ H2].
    destruct (IH m2 H1 H2 Heq) as [-> ->]. done.
Qed.

Lemma NoDup_fmap_inj_on {A B : Type} (f : A → B) (l : list A) (x y : A) :
  NoDup (f <$> l) → x ∈ l → y ∈ l → f x = f y → x = y.
Proof.
  induction l as [|a l IH]; [by intros _ ?%elem_of_nil |].
  rewrite fmap_cons, NoDup_cons.
  intros [Ha Hnd] [-> | Hx]%elem_of_cons [-> | Hy]%elem_of_cons Hf; [done | | | by apply IH].
  - destruct Ha. rewrite Hf. by apply list_elem_of_fmap_2.
  - destruct Ha. rewrite <- Hf. by apply list_elem_of_fmap_2.
Qed.

Lemma dict_of_lookup_NoDup {A V : Type} (key : A → string) (value : A → V)
    (rows : list A) (r : A) :
  NoDup (key <$> rows) → r ∈ rows →
  Store.dict_of key value rows !! key r = Some (value r).
Proof.
  intros Hnd (before & after & ->)%list_elem_of_split.
  eapply (dict_of_last_row_wins key value); [done | done |].
  rewrite fmap_app, fmap_cons in Hnd.
  apply NoDup_app in Hnd as (_ & _ & Hnd). by apply NoDup_cons in Hnd as [? _].
Qed.

(** X15.  When the primary keys of the tables are distinct, and no
    market name (and, for the category table, no channel name) holds an
    underscore, the engine that [build_calc_engine] builds answers the
    composite key of every row with the configuration of that very row:
    no row hides another. *)
Theorem build_calc_engine_finds_every_row
    (settings_res : list Store.GlobalSetting) (market_res : list Store.market_row)
    (channel_res : list Store.channel_row) (category_res : list Store.category_row) :
  NoDup (channel_pk <$> channel_res) →
  NoDup ((λ r, (Store.category_market_id r, Store.category_channel r,
                Store.category_name r)) <$> category_res) →
  Forall (λ r, has_underscore (Store.channel_market_id r) = false) channel_res →
  Forall (λ r, has_underscore (Store.category_market_id r) = false
               ∧ has_underscore (Store.category_channel r) = false) category_res →
  let engine :=
    Recalculator.build_calc_engine settings_res market_res channel_res category_res in
  (∀ r, r ∈ channel_res →
     market_channels engine
       !! (Store.channel_market_id r +:+ "_" +:+ Store.channel_name r)
     = Some (Store.channel_config r))
  ∧ (∀ r, r ∈ category_res →
       market_categories engine
         !! (Store.category_market_id r +:+ "_" +:+ Store.category_channel r
             +:+ "_" +:+ Store.category_name r)
       = Some (Store.category_config r)).
Proof.
  intros Hch Hcat Fch Fcat engine.
  rewrite Forall_forall in Fch. rewrite Forall_forall in Fcat. split.
  - intros r Hr. apply (dict_of_lookup_NoDup Store.channel_key); [| done].
    apply (NoDup_fmap_2_strong Store.channel_key); [| by apply NoDup_fmap_1 in Hch].
    intros r1 r2 Hr1 Hr2 Hkey.
    apply (NoDup_fmap_inj_on channel_pk channel_res); [done | done | done |].
    destruct (join_inj _ _ _ _ (Fch _ Hr1) (Fch _ Hr2) Hkey) as [Hm Hc].
    unfold channel_pk. by rewrite Hm, Hc.
  - intros r Hr. apply (dict_of_lookup_NoDup Store.category_key); [| done].
    apply (NoDup_fmap_2_strong Store.category_key); [| by apply NoDup_fmap_1 in Hcat].
    intros r1 r2 Hr1 Hr2 Hkey.
    eapply (NoDup_fmap_inj_on _ category_res); [exact Hcat | done | done |].
    destruct (Fcat _ Hr1) as [M1 C1]. destruct (Fcat _ Hr2) as [M2 C2].
    destruct (join_inj _ _ _ _ M1 M2 Hkey) as [Hm Hrest].
    destruct (join_inj _ _ _ _ C1 C2 Hrest) as [Hc Hn].
    simpl. by rewrite Hm, Hc, Hn.
Qed.

Lemma build_calc_engine_finds_every_row_witness :
  let ecom := {| Store.channel_market_id := "India"; Store.channel_name := "E-Com";
                 Store.channel_config := Sample.ecom |} in
  let mt := {| Store.channel_market_id := "India"; Store.channel_name := "MT";
               Store.channel_config := default_channel_config |} in
  let skin := {| Store.category_market_id := "India"; Store.category_channel := "E-Com";
                 Store.category_name := "Skin";
                 Store.category_config :=
                   {| adoption_rate_override := Some 0.9;
                      marketing_lift_override := None;
                      competitor_idx_override := None |} |} in
  let skin_mt := {| Store.category_market_id := "India"; Store.category_channel := "MT";
                 Store.category_name := "Skin";
                 Store.category_config :=
                   {| adoption_rate_override := None;
                      marketing_lift_override := Some 1.05;
                      competitor_idx_override := None |} |} in
  let engine := Recalculator.build_calc_engine [] [] [ecom; mt] [skin; skin_mt] in
  market_channels engine !! "India_E-Com" = Some Sample.ecom
  ∧ market_channels engine !! "India_MT" = Some default_channel_config
  ∧ market_categories engine !! "India_E-Com_Skin" = Some (Store.category_config skin)
  ∧ market_categories engine !! "India_MT_Skin" = Some (Store.category_config skin_mt).
Proof.
  intros ecom mt skin skin_mt engine.
  destruct (build_calc_engine_finds_every_row [] [] [ecom; mt] [skin; skin_mt])
    as [Hch Hcat].
  - apply NoDup_cons. split; [| apply NoDup_singleton].
    intros H%list_elem_of_singleton. discriminate H.
  - apply NoDup_cons. split; [| apply NoDup_singleton].
    intros H%list_elem_of_singleton. discriminate H.
  - repeat (apply Forall_cons; split; [reflexivity |]). by apply Forall_nil.
  - repeat (apply Forall_cons; split; [by split |]). by apply Forall_nil.
  - split; [apply (Hch ecom); by left |].
    split; [apply (Hch mt); right; by left |].
    split; [apply (Hcat skin); by left | apply (Hcat skin_mt); right; by left].
Defined.


(** ** Writing the results back *)

Lemma copy_into_snapshot (with_id : bool) (old : SkuCalculationCache)
    (self : CalculationEngine) (sku : SkuRecord) (market channel : string)
    (ub ut uw : pynum) :
  cache_sku_id old = sku_id sku ∨ with_id = true →
  Recalculator.copy_into with_id old (snapshot self sku market channel ub ut uw)
  = snapshot self sku market channel ub ut uw.
Proof.
  intros Hid. unfold Recalculator.copy_into, snapshot. simpl.
  destruct with_id; [done |]. destruct Hid as [-> | [=]]. done.
Qed.

Lemma copy_into_new_cache (with_id : bool) (old : SkuCalculationCache) (id : string) :
  cache_sku_id old = id →
  Recalculator.copy_into with_id old (new_cache id) = old.
Proof. intros <-. destruct old, with_id; reflexivity. Qed.

(** X16.  What the write-back does to a SKU that already has a cached
    result.  For a SKU with market and channel the old cache is replaced
    field for field by the new snapshot, nothing of it survives.  For a
    SKU that lacks a market or a channel the engine's empty cache copies
    nothing over: the row stays as it is, old figures included.  The
    loop of [_parse_skus], which skips [sku_id], copies the same as the
    loop of [recalculate_all_skus] when the two caches are of one SKU. *)
Theorem recalculate_replaces_or_keeps (engine : CalculationEngine)
    (db_sku : Store.sku_row) (old : SkuCalculationCache) :
  Store.cache db_sku = Some old →
  (Py.truthy_str (target_market (Store.sku db_sku)) = true →
   Py.truthy_str (primary_channel (Store.sku db_sku)) = true →
   Recalculator.recalculate_sku engine db_sku
   = (new_cache ← calculate_sku engine (Store.sku db_sku);
      mret {| Store.sku := Store.sku db_sku; Store.cache := Some new_cache |}))
  ∧ (Py.truthy_str (target_market (Store.sku db_sku)) = false
     ∨ Py.truthy_str (primary_channel (Store.sku db_sku)) = false →
     cache_sku_id old = sku_id (Store.sku db_sku) →
     Recalculator.recalculate_sku engine db_sku = Ok db_sku)
  ∧ (∀ new, cache_sku_id new = cache_sku_id old →
       Recalculator.copy_into false old new = Recalculator.copy_into true old new).
Proof.
  intros Hold. unfold Recalculator.recalculate_sku. rewrite Hold.
  split; [| split; [| by intros new Hid; unfold Recalculator.copy_into; rewrite Hid]].
  - intros Hm Hc.
    destruct (targets_truthy _ Hm Hc) as (market & channel & Ht).
    destruct (calculate_sku engine (Store.sku db_sku)) as [c|e] eqn:Hcalc; [| done].
    apply (returned_snapshot engine _ _ _ _ Ht) in Hcalc
      as (ub & ut & uw & _ & _ & _ & ->).
    simpl. by rewrite copy_into_snapshot by auto.
  - intros Hguard Hid. rewrite guard_stops by done. simpl.
    rewrite copy_into_new_cache by done. destruct db_sku. simpl in Hold. by subst.
Qed.

Lemma recalculate_replaces_or_keeps_witness :
  let sku := Sample.sku None (Some "E-Com") (Some 100) (Some 40) None in
  let row := {| Store.sku := sku;
                Store.cache :=
                  Some (snapshot Sample.engine sku "India" "E-Com"
                          (PyFloat 1) (PyFloat 1) (PyFloat 1)) |} in
  Recalculator.recalculate_sku Sample.engine row = Ok row.
Proof.
  intros sku row.
  destruct (recalculate_replaces_or_keeps Sample.engine row
              (snapshot Sample.engine sku "India" "E-Com"
                 (PyFloat 1) (PyFloat 1) (PyFloat 1)) eq_refl) as (_ & H & _).
  apply H; [by left | reflexivity].
Defined.

Lemma recalculate_sku_inv (engine : CalculationEngine) (db_sku db_sku' : Store.sku_row) :
  Recalculator.recalculate_sku engine db_sku = Ok db_sku' →
  Store.sku db_sku' = Store.sku db_sku ∧ is_Some (Store.cache db_sku').
Proof.
  unfold Recalculator.recalculate_sku. intros (c & _ & [= <-])%bind_Ok_inv.
  split; [done | by eexists].
Qed.

Lemma recalculate_sku_incomplete (engine : CalculationEngine) (db_sku : Store.sku_row) :
  Py.truthy_str (target_market (Store.sku db_sku))
  && Py.truthy_str (primary_channel (Store.sku db_sku)) = false →
  ∃ db_sku', Recalculator.recalculate_sku engine db_sku = Ok db_sku'.
Proof.
  intros [H | H]%andb_false_iff; unfold Recalculator.recalculate_sku;
    rewrite guard_stops by auto; by eexists.
Qed.

Lemma recalculate_sku_zero_divisor (engine : CalculationEngine)
    (db_sku db_sku' : Store.sku_row) :
  ¬ divisors_nonzero engine →
  Py.truthy_str (target_market (Store.sku db_sku))
  && Py.truthy_str (primary_channel (Store.sku db_sku)) = true →
  Recalculator.recalculate_sku engine db_sku ≠ Ok db_sku'.
Proof.
  intros Hd [Hm Hc]%andb_true_iff.
  destruct (targets_truthy _ Hm Hc) as (market & channel & Ht).
  unfold Recalculator.recalculate_sku. intros (c & Hcalc & _)%bind_Ok_inv.
  rewrite (guard_passes _ _ _ _ Ht) in Hcalc.
  by apply calculate_full_Ok_divisors in Hcalc.
Qed.

(** X17.  The batch is all or nothing.  Whenever [recalculate_all_skus]
    returns, it returns the same SKUs in the same order, every one of
    them with a cache.  It returns when no SKU has both a market and a
    channel.  And when a price divisor of the engine it built is zero,
    one SKU that has both keeps the whole batch from returning,
    whatever the other SKUs are. *)
Theorem recalculate_all_or_nothing
    (settings_res : list Store.GlobalSetting) (market_res : list Store.market_row)
    (channel_res : list Store.channel_row) (category_res : list Store.category_row)
    (skus : list Store.sku_row) :
  let engine :=
    Recalculator.build_calc_engine settings_res market_res channel_res category_res in
  let complete := λ r : Store.sku_row,
    Py.truthy_str (target_market (Store.sku r))
    && Py.truthy_str (primary_channel (Store.sku r)) in
  let batch :=
    Recalculator.recalculate_all_skus settings_res market_res channel_res
      category_res skus in
  (∀ skus', batch = Ok skus' →
     Store.sku <$> skus' = Store.sku <$> skus
     ∧ Forall (λ r, is_Some (Store.cache r)) skus')
  ∧ (Forall (λ r, complete r = false) skus → ∃ skus', batch = Ok skus')
  ∧ (¬ divisors_nonzero engine → Exists (λ r, complete r = true) skus →
     ∀ skus', batch ≠ Ok skus').
Proof.
  intros engine complete batch. unfold batch, Recalculator.recalculate_all_skus.
  fold engine. clear batch. split; [| split].
  - induction skus as [|r skus IH]; intros skus'.
    + intros [= <-]. by split.
    + cbn [Recalculator.recalculate_skus].
      intros (r' & Hr & (rest & Hrest & [= <-])%bind_Ok_inv)%bind_Ok_inv.
      destruct (recalculate_sku_inv _ _ _ Hr) as [Hsku Hcache].
      destruct (IH _ Hrest) as [Hskus Hcaches].
      split; [rewrite !fmap_cons; by f_equal | by apply Forall_cons].
  - induction skus as [|r skus IH]; intros Hall.
    + by exists [].
    + apply Forall_cons in Hall as [Hr Hall].
      destruct (recalculate_sku_incomplete engine r Hr) as [r' Er].
      destruct (IH Hall) as [rest Erest].
      exists (r' :: rest). cbn [Recalculator.recalculate_skus].
      by rewrite Er, bind_Ok, Erest.
  - intros Hd. induction skus as [|r skus IH]; intros Hex skus'.
    + by apply Exists_nil in Hex.
    + cbn [Recalculator.recalculate_skus].
      intros (r' & Hr & (rest & Hrest & _)%bind_Ok_inv)%bind_Ok_inv.
      apply Exists_cons in Hex as [Hex | Hex].
      * by apply (recalculate_sku_zero_divisor engine r r' Hd).
      * by apply (IH Hex rest).
Qed.

(** ** Risk and volume *)

(** X18.  With a risk slope that is not negative, a higher risk score
    never gives a higher risk factor; and a risk score of at most 1
    costs nothing, the risk factor being at least 1. *)
Theorem risk_factor_antitone (self : CalculationEngine) (sku sku' : SkuRecord) :
  0 <= _get_setting self "global_risk_slope" 0.25 →
  score_d self sku <= score_d self sku' →
  risk_factor_of self sku' <= risk_factor_of self sku
  ∧ (score_d self sku <= 1 → 1 <= risk_factor_of self sku).
Proof.
  intros Hslope Hle. unfold risk_factor_of. split.
  - apply Rmax_lub; [apply Rmax_l |].
    eapply Rle_trans; [| apply Rmax_r]. nra.
  - intros H1. eapply Rle_trans; [| apply Rmax_r]. nra.
Qed.

Lemma risk_factor_antitone_witness :
  let sku := rated (Sample.sku (Some "India") (Some "E-Com") None None None) (Some 2%Z) in
  let sku' := rated (Sample.sku (Some "India") (Some "E-Com") None None None) (Some 4%Z) in
  score_d Sample.engine sku < score_d Sample.engine sku'
  ∧ risk_factor_of Sample.engine sku' <= risk_factor_of Sample.engine sku.
Proof.
  intros sku sku'.
  assert (Hd : score_d Sample.engine sku = 2 ∧ score_d Sample.engine sku' = 4).
  { unfold score_d. rewrite !get_setting_absent by done.
    unfold Py.int_or_zero. simpl. split; lra. }
  destruct Hd as [Hd Hd']. split; [lra |].
  apply (risk_factor_antitone Sample.engine sku sku').
  - rewrite get_setting_absent by done. lra.
  - lra.
Defined.
